(** * Contract compatibility governance engine

    A shallow embedding of the decision chain of the repository:
    - [core_engine/versioning/comparator.py]       ([compare_versions])
    - [core_engine/compatibility/policy_engine.py] ([evaluate_compatibility])
    - [core_engine/versioning/schema_diff.py]      ([compare_contract_fields])
    - [core_engine/governance/impact_classifier.py] ([classify_impact])
    - [core_engine/governance/cicd_gate.py]        ([evaluate_cicd_gate])
    - [core_engine/governance/termination.py]      ([terminate_pipeline])
    - [core_engine/governance/audit_writer.py]     ([write_compatibility_report])
    - [pipelines/batch_pipeline.py], layers [6] to [12] of its entry point.

    Python strings are [string], Python integers are [Z], [None] is the
    [None] of [option], dictionaries keyed by field names are [gmap string],
    Python sets are [gset string].  Exceptions are the [Raise] results of a
    small error monad; the log and the report directory are threaded as
    explicit state. *)

From Stdlib Require Import ZArith String Ascii List Bool Lia.
From stdpp Require Import base option list gmap sets strings pretty.

Local Open Scope string_scope.
Local Open Scope Z_scope.

(** ** Exceptions and results *)

Inductive exn : Type :=
| ValueError (msg : string)
| SystemExit (code : Z).

Inductive result (A : Type) : Type :=
| Ok (a : A)
| Raise (e : exn).

Arguments Ok {A} a.
Arguments Raise {A} e.

(** ** The Python built-ins used by the comparator *)

Module Py.

(** [s.split(sep)] for a one-character separator: the text is cut at every
    occurrence, so the result has one more piece than there are separators
    and is never empty. *)
Fixpoint split (sep : ascii) (s : string) : list string :=
  match s with
  | EmptyString => [EmptyString]
  | String c r =>
      if Ascii.eqb c sep then EmptyString :: split sep r
      else match split sep r with
           | h :: t => String c h :: t
           | [] => [String c EmptyString]
           end
  end.

(** White space skipped by [int()] around a literal: tab, line feed,
    vertical tab, form feed, carriage return and space. *)
Definition is_space (c : ascii) : bool :=
  let n := nat_of_ascii c in
  (Nat.leb 9 n && Nat.leb n 13) || Nat.eqb n 32.

Definition digit_of (c : ascii) : option Z :=
  let n := Z.of_nat (nat_of_ascii c) in
  if (48 <=? n) && (n <=? 57) then Some (n - 48) else None.

Definition is_digit (c : ascii) : bool :=
  match digit_of c with Some _ => true | None => false end.

Definition is_underscore (c : ascii) : bool := Ascii.eqb c "_".

Definition in_literal (c : ascii) : bool := is_digit c || is_underscore c.

Fixpoint skip_while (p : ascii -> bool) (l : list ascii) : list ascii :=
  match l with
  | c :: r => if p c then skip_while p r else l
  | [] => []
  end.

Fixpoint keep_while (p : ascii -> bool) (l : list ascii) : list ascii :=
  match l with
  | c :: r => if p c then c :: keep_while p r else []
  | [] => []
  end.

(** The digit run of a literal: not empty, no underscore first or last, no
    two underscores in a row. *)
Fixpoint well_grouped (prev_underscore : bool) (run : list ascii) : bool :=
  match run with
  | [] => negb prev_underscore
  | c :: r =>
      if is_underscore c then negb prev_underscore && well_grouped true r
      else well_grouped false r
  end.

Definition valid_run (run : list ascii) : bool :=
  match run with
  | [] => false
  | _ => well_grouped true run
  end.

Definition run_value (run : list ascii) : Z :=
  fold_left (fun acc c => match digit_of c with
                          | Some d => 10 * acc + d
                          | None => acc
                          end) run 0.

Definition count_digits (run : list ascii) : Z :=
  Z.of_nat (length (filter (fun c => is_digit c = true) run)).

(** CPython refuses to convert a literal of more digits than this
    ([sys.int_info.default_max_str_digits]). *)
Definition int_max_str_digits : Z := 4300.

(** [int(s)] for a string [s] in base ten, [None] standing for the
    [ValueError] it raises: optional white space, an optional sign, a digit
    run, optional white space.  The model is exact on ASCII text; any
    character above 127 is rejected. *)
Definition int (s : string) : option Z :=
  let l := skip_while is_space (list_ascii_of_string s) in
  let '(sign, l) :=
    match l with
    | c :: r =>
        if Ascii.eqb c "+" then (1, r)
        else if Ascii.eqb c "-" then (-1, r)
        else (1, l)
    | [] => (1, l)
    end in
  let run := keep_while in_literal l in
  let rest := skip_while in_literal l in
  if valid_run run
     && forallb is_space rest
     && (count_digits run <=? int_max_str_digits)
  then Some (sign * run_value run)
  else None.

End Py.

(** ** Version comparator ([comparator.py]) *)

(** The unpacking [major, minor = map(int, version.split("."))]: it succeeds
    when the text has exactly two pieces and [int] accepts both. *)
Definition parse_version (version : string) : option (Z * Z) :=
  match Py.split "." version with
  | [a; b] =>
      match Py.int a, Py.int b with
      | Some major, Some minor => Some (major, minor)
      | _, _ => None
      end
  | _ => None
  end.

Definition invalid_version_format : exn :=
  ValueError "Invalid version format. Expected MAJOR.MINOR".

Definition compare_versions (contract_version expected_version : string)
  : result string :=
  match parse_version expected_version, parse_version contract_version with
  | Some (exp_major, exp_minor), Some (con_major, con_minor) =>
      if negb (con_major =? exp_major) then
        if con_major >? exp_major then Ok "MAJOR_UPGRADE"
        else Ok "MAJOR_DOWNGRADE"
      else if con_minor >? exp_minor then Ok "MINOR_UPGRADE"
      else if con_minor <? exp_minor then Ok "MINOR_DOWNGRADE"
      else Ok "EQUAL"
  | _, _ => Raise invalid_version_format
  end.

(** ** Compatibility policy engine ([policy_engine.py]) *)

(** Python's [==] on strings, and [x in [a, b, ...]] on a list of strings. *)
Notation "a == b" := (String.eqb a b) (at level 70, no associativity).

Definition py_in (x : string) (l : list string) : bool :=
  existsb (String.eqb x) l.

Definition unknown_mode (mode : string) : exn :=
  ValueError ("Unknown compatibility mode: " ++ mode).

Definition evaluate_compatibility (comparison_result mode : string)
  : result bool :=
  if mode == "strict" then
    Ok (comparison_result == "EXACT_MATCH")
  else if mode == "forward_minor" then
    Ok (py_in comparison_result ["EXACT_MATCH"; "MINOR_UPGRADE"])
  else if mode == "override" then
    Ok true
  else
    Raise (unknown_mode mode).

(** ** Schema drift detector ([schema_diff.py]) *)

(** A field descriptor, read with [.get("type")] and [.get("required")]:
    a missing key reads as [None]. *)
Module Field.
Record t : Type := Build { type : option string; required : option bool }.
End Field.

(** A contract document.  [version] and [fields] are the two keys the engine
    reads, each possibly missing. *)
Module Contract.
Record t : Type := Build {
  version : option string;
  fields : option (gmap string Field.t)
}.

(** [contract.get("fields", {})] *)
Definition get_fields (c : t) : gmap string Field.t := default ∅ (fields c).

(** Truth value of the document in [if baseline_contract:]: a dictionary is
    false exactly when it has no key. *)
Definition truthy (c : t) : bool :=
  match version c, fields c with
  | None, None => false
  | _, _ => true
  end.
End Contract.

Module Drift.
Record t : Type := Build {
  added_fields : list string;
  removed_fields : list string;
  type_changes : list string;
  required_changes : list string
}.
End Drift.

(** Truth value of a Python list: false exactly when empty. *)
Definition nonempty {A} (l : list A) : bool :=
  match l with [] => false | _ :: _ => true end.

(** [fields[field].get("type")] and [fields[field].get("required")] *)
Definition type_of (fs : gmap string Field.t) (field : string) : option string :=
  fs !! field ≫= Field.type.

Definition required_of (fs : gmap string Field.t) (field : string) : option bool :=
  fs !! field ≫= Field.required.

(** The two difference lists come from Python sets and the loop runs over a
    set intersection, so their order is that of the set's iteration
    ([elements]); no caller depends on it. *)
Definition compare_contract_fields (expected_contract actual_contract : Contract.t)
  : Drift.t :=
  let expected_fields := Contract.get_fields expected_contract in
  let actual_fields := Contract.get_fields actual_contract in
  let expected_set : gset string := dom expected_fields in
  let actual_set : gset string := dom actual_fields in
  let shared := elements (expected_set ∩ actual_set) in
  {| Drift.added_fields := elements (actual_set ∖ expected_set);
     Drift.removed_fields := elements (expected_set ∖ actual_set);
     Drift.type_changes :=
       filter (λ field, type_of expected_fields field ≠ type_of actual_fields field)
              shared;
     Drift.required_changes :=
       filter (λ field, required_of expected_fields field
                          ≠ required_of actual_fields field)
              shared |}.

(** ** Governance impact classifier ([impact_classifier.py]) *)

Module Impact.
Record t : Type := Build {
  impact_tier : Z;
  drift_category : string;
  requires_review : bool;
  blocks_deployment : bool
}.
End Impact.

(** [field_drift and field_drift[key]]: the drift dictionary always has its
    four keys, so it is true whenever it is not [None]. *)
Definition drift_has (field_drift : option Drift.t) (key : Drift.t → list string)
  : bool :=
  match field_drift with
  | Some d => nonempty (key d)
  | None => false
  end.

Definition classify_impact (decision_label comparison_result : string)
    (field_drift : option Drift.t) : Impact.t :=
  if decision_label == "FIELD_BREAKING_CHANGE" then
    Impact.Build 1 "BREAKING_SCHEMA_CHANGE" true true
  else if comparison_result == "MAJOR_UPGRADE" then
    Impact.Build 1 "MAJOR_VERSION_BREAK" true true
  else if drift_has field_drift Drift.type_changes then
    Impact.Build 2 "TYPE_CHANGE" true false
  else if drift_has field_drift Drift.required_changes then
    Impact.Build 3 "REQUIRED_FLAG_CHANGE" true false
  else if drift_has field_drift Drift.added_fields then
    Impact.Build 4 "ADDITIVE_CHANGE" false false
  else
    Impact.Build 5 "NO_IMPACT" false false.

(** ** CI/CD deployment gate ([cicd_gate.py]) *)

Module Gate.
Record t : Type := Build {
  gate_status : string;
  requires_manual_approval : bool;
  blocks_pipeline : bool;
  action_required : string
}.
End Gate.

Definition evaluate_cicd_gate (impact_tier : Z) : Gate.t :=
  if impact_tier =? 1 then
    {| Gate.gate_status := "BLOCK";
       Gate.requires_manual_approval := true;
       Gate.blocks_pipeline := true;
       Gate.action_required := "Schema Breaking Change – Deployment Blocked" |}
  else if impact_tier =? 2 then
    {| Gate.gate_status := "REVIEW_REQUIRED";
       Gate.requires_manual_approval := true;
       Gate.blocks_pipeline := false;
       Gate.action_required := "Type Change – Manual Architecture Review Required" |}
  else if impact_tier =? 3 then
    {| Gate.gate_status := "WARNING";
       Gate.requires_manual_approval := true;
       Gate.blocks_pipeline := false;
       Gate.action_required := "Required Flag Change – Review Recommended" |}
  else if impact_tier =? 4 then
    {| Gate.gate_status := "AUTO_APPROVE";
       Gate.requires_manual_approval := false;
       Gate.blocks_pipeline := false;
       Gate.action_required := "Additive Compatible Change – Auto Approved" |}
  else
    {| Gate.gate_status := "NO_ACTION";
       Gate.requires_manual_approval := false;
       Gate.blocks_pipeline := false;
       Gate.action_required := "No Compatibility Impact" |}.

(** ** The governance record ([batch_pipeline.py], layer [11]) *)

Module Report.
Record t : Type := Build {
  timestamp : Z;
  expected_version : string;
  contract_version : option string;
  comparison_result : string;
  compatibility_mode : string;
  execution_profile : string;
  allowed : bool;
  decision : string;
  severity : string;
  drift_detected : bool;
  field_drift : option Drift.t;
  impact_tier : Z;
  drift_category : string;
  requires_review : bool;
  blocks_deployment : bool;
  cicd_gate : Gate.t
}.
End Report.

(** ** State and effects *)

Inductive level : Type := WARNING | ERROR.

(** What a run leaves behind: the log lines of level WARNING and above, in
    order, and the files of the report directory by path. *)
Module World.
Record t : Type := Build {
  log : list (level * string);
  reports : gmap string Report.t
}.
Definition init : t := {| log := []; reports := ∅ |}.
End World.

(** What a run reads from its surroundings: [time.time()] (kept as a whole
    number) and [datetime.utcnow().strftime("%Y%m%d_%H%M%S")]. *)
Module Env.
Record t : Type := Build { time_time : Z; utcnow : string }.
End Env.

#[global] Instance result_ret : MRet result := λ A a, Ok a.
#[global] Instance result_bind : MBind result := λ A B f r,
  match r with Ok a => f a | Raise e => Raise e end.

(** State over the world, with exceptions. *)
Definition M (A : Type) : Type := World.t → result A * World.t.

#[global] Instance M_ret : MRet M := λ A a w, (Ok a, w).
#[global] Instance M_bind : MBind M := λ A B f m w,
  match m w with
  | (Ok a, w') => f a w'
  | (Raise e, w') => (Raise e, w')
  end.

Definition raise {A} (e : exn) : M A := λ w, (Raise e, w).

Definition lift {A} (r : result A) : M A := λ w, (r, w).

Definition emit (lvl : level) (msg : string) : M unit := λ w,
  (Ok (), {| World.log := World.log w ++ [(lvl, msg)];
             World.reports := World.reports w |}).

Definition when (b : bool) (m : M unit) : M unit :=
  if b then m else mret ().

(** The integer a process reports to its parent: the code of a [SystemExit],
    1 for any other uncaught exception, 0 when the script runs to its end. *)
Definition exit_code (r : result unit) : Z :=
  match r with
  | Ok _ => 0
  | Raise (SystemExit code) => code
  | Raise (ValueError _) => 1
  end.

(** ** Governance termination handler ([termination.py]) *)

(** The handler logs the reason, the note that no row was processed unless
    rows were started, and the exit code, then raises [SystemExit]; its
    closing separator is an INFO line, below what the log keeps here. *)
Definition terminate_pipeline {A} (reason_message : string) (exit_code : Z)
    (rows_started : bool) : M A :=
  emit ERROR reason_message;;
  when (negb rows_started)
    (emit ERROR "PIPELINE TERMINATED BEFORE DATA PROCESSING";;
     emit ERROR "NO ROWS WERE PROCESSED");;
  emit ERROR ("GOVERNANCE EXIT CODE: " ++ pretty exit_code);;
  raise (SystemExit exit_code).

(** ** Governance audit writer ([audit_writer.py]) *)

Definition report_path (env : Env.t) (report_directory : string) : string :=
  report_directory ++ "/" ++ "compatibility_report_" ++ Env.utcnow env ++ ".json".

Definition write_compatibility_report (env : Env.t) (report_data : Report.t)
    (report_directory : string) : M string := λ w,
  let filepath := report_path env report_directory in
  (Ok filepath,
   {| World.log := World.log w;
      World.reports := <[filepath := report_data]> (World.reports w) |}).

(** ** The batch pipeline ([batch_pipeline.py]) *)

Module Policy.
Record t : Type := Build {
  expected_version : string;
  compatibility_mode : string;
  execution_profile : option string
}.

(** [policy.get("execution_profile", "batch")] *)
Definition get_execution_profile (p : t) : string :=
  default "batch" (execution_profile p).
End Policy.

(** Layer [6].  A contract without a version hands [None] to the
    comparator, whose [split] then fails inside the [try] block. *)
Definition version_comparison (contract_version : option string)
    (expected_version : string) : result string :=
  match contract_version with
  | Some v => compare_versions v expected_version
  | None => Raise invalid_version_format
  end.

(** Layer [8]. *)
Definition field_drift_detection (baseline_contract : option Contract.t)
    (contract : Contract.t) : option Drift.t :=
  match baseline_contract with
  | Some baseline =>
      if Contract.truthy baseline
      then Some (compare_contract_fields baseline contract)
      else None
  | None => None
  end.

(** Layer [9]. *)
Definition decision_classification (is_allowed : bool)
    (comparison_result compatibility_mode : string) : string :=
  if negb is_allowed then "HARD_FAIL"
  else if comparison_result == "EXACT_MATCH" then "PASS"
  else if compatibility_mode == "override" then "SOFT_PASS_DRIFT"
  else "PASS_WITH_FORWARD_COMPAT".

(** Layer [9b]: the flag [breaking_changes]. *)
Definition breaking_changes (field_drift : option Drift.t) : bool :=
  match field_drift with
  | Some d =>
      nonempty (Drift.removed_fields d)
      || nonempty (Drift.type_changes d)
      || nonempty (Drift.required_changes d)
  | None => false
  end.

(** Layer [10]: severity and [drift_detected]. *)
Definition severity_classification (decision_label : string) : string * bool :=
  if py_in decision_label ["FIELD_BREAKING_CHANGE"; "HARD_FAIL"] then
    ("CRITICAL", true)
  else if decision_label == "SOFT_PASS_DRIFT" then ("WARNING", true)
  else if decision_label == "PASS_WITH_FORWARD_COMPAT" then ("INFO", true)
  else ("INFO", false).

(** Layers [6] to [11]: from the loaded documents to the governance record. *)
Definition evaluate (env : Env.t) (policy : Policy.t)
    (baseline_contract : option Contract.t) (contract : Contract.t)
  : result Report.t :=
  let expected_version := Policy.expected_version policy in
  let compatibility_mode := Policy.compatibility_mode policy in
  let execution_profile := Policy.get_execution_profile policy in
  let contract_version := Contract.version contract in
  comparison_result ← version_comparison contract_version expected_version;
  is_allowed ← evaluate_compatibility comparison_result compatibility_mode;
  let field_drift := field_drift_detection baseline_contract contract in
  let decision_label :=
    decision_classification is_allowed comparison_result compatibility_mode in
  let breaking := breaking_changes field_drift in
  let decision_label :=
    if breaking then "FIELD_BREAKING_CHANGE" else decision_label in
  let is_allowed := if breaking then false else is_allowed in
  let '(severity, drift_detected) := severity_classification decision_label in
  let impact_result :=
    classify_impact decision_label comparison_result field_drift in
  let gate_result := evaluate_cicd_gate (Impact.impact_tier impact_result) in
  mret {| Report.timestamp := Env.time_time env;
          Report.expected_version := expected_version;
          Report.contract_version := contract_version;
          Report.comparison_result := comparison_result;
          Report.compatibility_mode := compatibility_mode;
          Report.execution_profile := execution_profile;
          Report.allowed := is_allowed;
          Report.decision := decision_label;
          Report.severity := severity;
          Report.drift_detected := drift_detected;
          Report.field_drift := field_drift;
          Report.impact_tier := Impact.impact_tier impact_result;
          Report.drift_category := Impact.drift_category impact_result;
          Report.requires_review := Impact.requires_review impact_result;
          Report.blocks_deployment := Impact.blocks_deployment impact_result;
          Report.cicd_gate := gate_result |}.

(** Layer [12]. *)
Definition profile_enforcement (is_allowed : bool) (execution_profile : string)
  : M unit :=
  if negb is_allowed then
    if execution_profile == "batch" then
      terminate_pipeline "Compatibility enforcement failed (batch mode)." 2 false
    else if execution_profile == "streaming" then
      emit WARNING
        "Streaming profile detected. Compatibility drift logged but pipeline continues."
    else
      terminate_pipeline ("Unknown execution profile: " ++ execution_profile) 2 false
  else mret ().

(** The entry point from layer [6] on: the record is assembled, written by
    the audit writer, the gate is reported and the profile enforced. *)
Definition main (env : Env.t) (policy : Policy.t)
    (baseline_contract : option Contract.t) (contract : Contract.t) : M unit :=
  compatibility_decision ← lift (evaluate env policy baseline_contract contract);
  _ ← write_compatibility_report env compatibility_decision "reports";
  when (Gate.blocks_pipeline (Report.cicd_gate compatibility_decision))
    (emit ERROR "CI/CD Gate Blocked Deployment.");;
  profile_enforcement (Report.allowed compatibility_decision)
    (Report.execution_profile compatibility_decision).

(** A run from a fresh world: how it ended and what it left. *)
Definition run (env : Env.t) (policy : Policy.t)
    (baseline_contract : option Contract.t) (contract : Contract.t)
  : result unit * World.t :=
  main env policy baseline_contract contract World.init.

(** Layer [4]: where the baseline contract is looked up,
    [f"contracts/contract_v{expected_version.split('.')[0]}.json"].  The
    list of pieces is never empty, so the index 0 always exists. *)
Definition baseline_contract_path (expected_version : string) : string :=
  "contracts/contract_v" ++ hd "" (Py.split "." expected_version) ++ ".json".

(** ** The earlier engine ([day14_pipeline_p3.py]) *)

(** The script carries its own comparator and termination handler, both
    word for word those of the core engine, an evaluator of four modes, and
    an enforcement step (layer [A5]) that ends the run on a denial. *)
Module Day14.

Definition evaluate_compatibility (comparison_result mode : string)
  : result bool :=
  if mode == "strict" then
    Ok (comparison_result == "EQUAL")
  else if mode == "forward_minor" then
    Ok (py_in comparison_result ["EQUAL"; "MINOR_UPGRADE"])
  else if mode == "backward_minor" then
    Ok (py_in comparison_result ["EQUAL"; "MINOR_DOWNGRADE"])
  else if mode == "hybrid" then
    Ok (py_in comparison_result ["EQUAL"; "MINOR_UPGRADE"; "MINOR_DOWNGRADE"])
  else
    Raise (unknown_mode mode).

Definition failure_message (compatibility_mode comparison_result : string)
  : string :=
  "COMPATIBILITY FAILURE: Mode '" ++ compatibility_mode
    ++ "' does not allow '" ++ comparison_result ++ "'".

(** Layer [A5]. *)
Definition enforcement (policy : Policy.t) (contract : Contract.t) : M unit :=
  let expected_version := Policy.expected_version policy in
  let compatibility_mode := Policy.compatibility_mode policy in
  let contract_version := Contract.version contract in
  comparison_result ← lift (version_comparison contract_version expected_version);
  is_allowed ← lift (evaluate_compatibility comparison_result compatibility_mode);
  if negb is_allowed then
    terminate_pipeline (failure_message compatibility_mode comparison_result) 2 false
  else mret ().

End Day14.

(** * Vocabulary of the statements *)

(** ** Versions *)

(** [version_parts v major minor]: the text [v] is cut by its dots into
    exactly two pieces, which [int] reads as [major] and [minor]. *)
Definition version_parts (version : string) (major minor : Z) : Prop :=
  ∃ a b, Py.split "." version = [a; b]
         ∧ Py.int a = Some major ∧ Py.int b = Some minor.

Definition well_formed (version : string) : Prop :=
  ∃ major minor, version_parts version major minor.

(** The reading of the data model: two components, both non-negative. *)
Definition nonnegative_version (version : string) : bool :=
  match parse_version version with
  | Some (major, minor) => (0 <=? major) && (0 <=? minor)
  | None => false
  end.

(** ** Modes *)

(** The modes the evaluator has a branch for. *)
Definition recognised_modes : list string := ["strict"; "forward_minor"; "override"].

(** ** Drift reports *)

(** [present_with field_drift key]: a drift report is present and its list
    [key] is not empty. *)
Definition present_with (field_drift : option Drift.t)
    (key : Drift.t → list string) : Prop :=
  ∃ d, field_drift = Some d ∧ key d ≠ [].

(** ** Labels and worlds *)

(** The label after the override of layer [9b]. *)
Definition final_label (breaking is_allowed : bool)
    (comparison_result compatibility_mode : string) : string :=
  if breaking then "FIELD_BREAKING_CHANGE"
  else decision_classification is_allowed comparison_result compatibility_mode.

(** A world with further lines at the end of its log. *)
Definition add_log (w : World.t) (lines : list (level * string)) : World.t :=
  {| World.log := World.log w ++ lines; World.reports := World.reports w |}.

(** The lines the termination handler logs before any row was processed. *)
Definition termination_lines (reason_message : string) (code : Z)
  : list (level * string) :=
  [(ERROR, reason_message);
   (ERROR, "PIPELINE TERMINATED BEFORE DATA PROCESSING");
   (ERROR, "NO ROWS WERE PROCESSED");
   (ERROR, "GOVERNANCE EXIT CODE: " ++ pretty code)].

(** The world in which layer [12] starts: the record is on file and the
    gate's block, if any, is logged. *)
Definition audited (env : Env.t) (r : Report.t) : World.t :=
  add_log {| World.log := [];
             World.reports := {[ report_path env "reports" := r ]} |}
          (if Gate.blocks_pipeline (Report.cicd_gate r)
           then [(ERROR, "CI/CD Gate Blocked Deployment.")] else []).

(** ** Directions and counts *)

(** The comparison seen from the other side. *)
Definition opposite (comparison_result : string) : string :=
  if comparison_result == "MAJOR_UPGRADE" then "MAJOR_DOWNGRADE"
  else if comparison_result == "MAJOR_DOWNGRADE" then "MAJOR_UPGRADE"
  else if comparison_result == "MINOR_UPGRADE" then "MINOR_DOWNGRADE"
  else if comparison_result == "MINOR_DOWNGRADE" then "MINOR_UPGRADE"
  else comparison_result.

(** The contract is not older than what is expected. *)
Definition not_older (comparison_result : string) : Prop :=
  comparison_result ∈ ["MAJOR_UPGRADE"; "MINOR_UPGRADE"; "EQUAL"].

(** How often a character occurs in a text. *)
Fixpoint occurrences (c : ascii) (s : string) : nat :=
  match s with
  | EmptyString => 0%nat
  | String x r => ((if Ascii.eqb x c then 1 else 0) + occurrences c r)%nat
  end.

(** The fields of a contract as the drift detector reads them. *)
Definition field_of (c : Contract.t) (field : string) : option Field.t :=
  Contract.get_fields c !! field.

(** Two descriptors that the detector cannot tell apart. *)
Definition same_shape (d d' : Field.t) : Prop :=
  Field.type d = Field.type d' ∧ Field.required d = Field.required d'.

(** ** Sample documents *)

Module Samples.

Definition env : Env.t := {| Env.time_time := 1700000000; Env.utcnow := "20231114_221320" |}.

Definition policy (mode profile : string) : Policy.t :=
  {| Policy.expected_version := "2.0";
     Policy.compatibility_mode := mode;
     Policy.execution_profile := Some profile |}.

(** A contract of the given version without a [fields] key. *)
Definition bare (version : string) : Contract.t :=
  {| Contract.version := Some version; Contract.fields := None |}.

Definition with_fields (version : string) (fs : gmap string Field.t) : Contract.t :=
  {| Contract.version := Some version; Contract.fields := Some fs |}.

Definition email : Field.t :=
  {| Field.type := Some "string"; Field.required := Some true |}.

Definition baseline : Contract.t := with_fields "2.0" {[ "email" := email ]}.

End Samples.

(** * Properties *)

(** ** Strings and results *)

Lemma eqb_true (a b : string) : (a == b) = true ↔ a = b.
Proof. apply String.eqb_eq. Qed.

Lemma eqb_false (a b : string) : (a == b) = false ↔ a ≠ b.
Proof. apply String.eqb_neq. Qed.

Lemma nonempty_true {A} (l : list A) : nonempty l = true ↔ l ≠ [].
Proof. destruct l; simpl; split; congruence. Qed.

Lemma nonempty_false {A} (l : list A) : nonempty l = false ↔ l = [].
Proof. destruct l; simpl; split; congruence. Qed.

(** Case analysis on a comparison of a string with a literal. *)
Ltac case_eqb s lit :=
  let E := fresh "E" in
  destruct (String.eqb_spec s lit) as [E | E]; [try subst s | ].

(** ** Version comparator *)

Lemma parse_version_parts (version : string) (major minor : Z) :
  parse_version version = Some (major, minor) ↔ version_parts version major minor.
Proof.
  unfold parse_version, version_parts. split.
  - destruct (Py.split "." version) as [|a [|b [|? ?]]]; try discriminate.
    destruct (Py.int a) eqn:Ha, (Py.int b) eqn:Hb; try discriminate.
    intros [= <- <-]. eauto.
  - intros (a & b & -> & -> & ->). reflexivity.
Qed.

Lemma parse_version_none (version : string) :
  parse_version version = None ↔ ¬ well_formed version.
Proof.
  split.
  - intros H (major & minor & Hp). apply parse_version_parts in Hp. congruence.
  - intros H. destruct (parse_version version) as [[major minor]|] eqn:E; [|done].
    exfalso. apply H. exists major, minor. by apply parse_version_parts.
Qed.

Lemma compare_versions_parsed (c e : string) (cM cm eM em : Z) :
  parse_version c = Some (cM, cm) → parse_version e = Some (eM, em) →
  compare_versions c e =
    Ok (if negb (cM =? eM) then
          if cM >? eM then "MAJOR_UPGRADE" else "MAJOR_DOWNGRADE"
        else if cm >? em then "MINOR_UPGRADE"
        else if cm <? em then "MINOR_DOWNGRADE"
        else "EQUAL").
Proof.
  intros Hc He. unfold compare_versions. rewrite Hc, He.
  repeat (case_match; try reflexivity).
Qed.

(** The comparator answers with one of five texts, never with
    ["EXACT_MATCH"]. *)
Lemma compare_versions_range (c e r : string) :
  compare_versions c e = Ok r →
  r ∈ ["MAJOR_UPGRADE"; "MAJOR_DOWNGRADE"; "MINOR_UPGRADE"; "MINOR_DOWNGRADE"; "EQUAL"].
Proof.
  unfold compare_versions.
  repeat (case_match; try discriminate); intros [= <-]; set_solver.
Qed.

(** C6, as stated, fails: a component with a minus sign is read by [int] as
    a negative number and compared like any other, so ["-1.5"], which has no
    two non-negative components, is classified and nothing is raised. *)
Lemma compare_versions_accepts_negative :
  nonnegative_version "-1.5" = false
  ∧ version_parts "-1.5" (-1) 5
  ∧ compare_versions "-1.5" "2.0" = Ok "MAJOR_DOWNGRADE".
Proof.
  split; [reflexivity|]. split; [|reflexivity].
  exists "-1", "5". repeat split; reflexivity.
Qed.

(** C6 (amended): [compare_versions] raises its [ValueError] exactly when
    one of the two texts does not split at its dots into exactly two pieces
    that [int] accepts (a sign is accepted, so a component may be negative);
    otherwise majors decide (greater: MAJOR_UPGRADE, lesser:
    MAJOR_DOWNGRADE, whatever the minors), and on equal majors the minors
    decide (greater: MINOR_UPGRADE, lesser: MINOR_DOWNGRADE, equal: EQUAL). *)
Theorem compare_versions_correct (contract_version expected_version : string) :
  (compare_versions contract_version expected_version = Raise invalid_version_format
   ↔ ¬ well_formed contract_version ∨ ¬ well_formed expected_version)
  ∧ (∀ r, compare_versions contract_version expected_version = Ok r
          → well_formed contract_version ∧ well_formed expected_version)
  ∧ (∀ con_major con_minor exp_major exp_minor,
       version_parts contract_version con_major con_minor →
       version_parts expected_version exp_major exp_minor →
       let r := compare_versions contract_version expected_version in
       (con_major > exp_major → r = Ok "MAJOR_UPGRADE")
       ∧ (con_major < exp_major → r = Ok "MAJOR_DOWNGRADE")
       ∧ (con_major = exp_major → con_minor > exp_minor → r = Ok "MINOR_UPGRADE")
       ∧ (con_major = exp_major → con_minor < exp_minor → r = Ok "MINOR_DOWNGRADE")
       ∧ (con_major = exp_major → con_minor = exp_minor → r = Ok "EQUAL")).
Proof.
  assert (Hraise : compare_versions contract_version expected_version
                   = Raise invalid_version_format
                   ↔ ¬ well_formed contract_version ∨ ¬ well_formed expected_version).
  { rewrite <- !parse_version_none. unfold compare_versions.
    destruct (parse_version expected_version) as [[eM em]|],
             (parse_version contract_version) as [[cM cm]|];
      try (split; [auto | reflexivity]).
    split; [| intros [?|?]; discriminate].
    repeat (case_match; try discriminate). }
  split; [exact Hraise|]. split.
  - intros r Hr.
    destruct (parse_version contract_version) as [[cM cm]|] eqn:Hc;
      [| apply parse_version_none in Hc;
         assert (compare_versions contract_version expected_version
                 = Raise invalid_version_format) by (apply Hraise; auto);
         congruence].
    destruct (parse_version expected_version) as [[eM em]|] eqn:He;
      [| apply parse_version_none in He;
         assert (compare_versions contract_version expected_version
                 = Raise invalid_version_format) by (apply Hraise; auto);
         congruence].
    split; [exists cM, cm | exists eM, em]; by apply parse_version_parts.
  - intros cM cm eM em Hc He r. subst r.
    apply parse_version_parts in Hc, He.
    rewrite (compare_versions_parsed _ _ _ _ _ _ Hc He).
    repeat split; intros;
      repeat match goal with
             | |- context [?a =? ?b] => destruct (Z.eqb_spec a b); simpl
             | |- context [?a >? ?b] => destruct (Z.gtb_spec a b); simpl
             | |- context [?a <? ?b] => destruct (Z.ltb_spec a b); simpl
             end; try reflexivity; lia.
Qed.

(** The amended C6 at the versions of scenario B and at a negative major. *)
Lemma compare_versions_correct_witness :
  compare_versions "3.0" "2.0" = Ok "MAJOR_UPGRADE"
  ∧ compare_versions "-1.5" "2.0" = Ok "MAJOR_DOWNGRADE".
Proof.
  split.
  - destruct (compare_versions_correct "3.0" "2.0") as (_ & _ & H).
    apply (H 3 0 2 0).
    + exists "3", "0". repeat split; reflexivity.
    + exists "2", "0". repeat split; reflexivity.
    + lia.
  - destruct (compare_versions_correct "-1.5" "2.0") as (_ & _ & H).
    apply (H (-1) 5 2 0).
    + exists "-1", "5". repeat split; reflexivity.
    + exists "2", "0". repeat split; reflexivity.
    + lia.
Defined.

(** ** Compatibility policy engine *)

Lemma evaluate_compatibility_known (comparison_result mode : string) :
  mode ∈ recognised_modes →
  ∃ b, evaluate_compatibility comparison_result mode = Ok b.
Proof.
  unfold recognised_modes. rewrite !elem_of_cons, elem_of_nil.
  intros [-> | [-> | [-> | []]]]; eexists; reflexivity.
Qed.

Lemma evaluate_compatibility_unknown (comparison_result mode : string) :
  mode ∉ recognised_modes →
  evaluate_compatibility comparison_result mode = Raise (unknown_mode mode).
Proof.
  unfold recognised_modes. rewrite !elem_of_cons, elem_of_nil. intros H.
  unfold evaluate_compatibility.
  case_eqb mode "strict"; [tauto|].
  case_eqb mode "forward_minor"; [tauto|].
  case_eqb mode "override"; [tauto|].
  reflexivity.
Qed.

(** Under [strict] and [forward_minor] the answer is true only for the text
    ["EXACT_MATCH"] (and, under [forward_minor], ["MINOR_UPGRADE"]). *)
Lemma evaluate_compatibility_allowed (comparison_result mode : string) :
  evaluate_compatibility comparison_result mode = Ok true →
  mode = "override"
  ∨ comparison_result = "EXACT_MATCH"
  ∨ (mode = "forward_minor" ∧ comparison_result = "MINOR_UPGRADE").
Proof.
  unfold evaluate_compatibility.
  case_eqb mode "strict".
  { intros [= H]. apply eqb_true in H. auto. }
  case_eqb mode "forward_minor".
  { unfold py_in. cbn [existsb]. intros [= H].
    rewrite !orb_true_iff, !eqb_true in H.
    destruct H as [? | [? | ?]]; auto; discriminate. }
  case_eqb mode "override"; [auto | discriminate].
Qed.

(** C2 at its failing input: the comparator reports equal versions as
    ["EQUAL"], and [strict] answers false to it.  [strict] answers true only
    to ["EXACT_MATCH"], a text the comparator never produces; the four other
    comparison results are denied, as the claim says. *)
Theorem strict_denies_equal :
  compare_versions "2.0" "2.0" = Ok "EQUAL"
  ∧ evaluate_compatibility "EQUAL" "strict" = Ok false
  ∧ evaluate_compatibility "EXACT_MATCH" "strict" = Ok true
  ∧ Forall (λ r, evaluate_compatibility r "strict" = Ok false)
           ["MINOR_UPGRADE"; "MAJOR_UPGRADE"; "MINOR_DOWNGRADE"; "MAJOR_DOWNGRADE"].
Proof.
  repeat split; try reflexivity.
  repeat constructor.
Qed.

(** No pair of versions is allowed by [strict]: whatever the comparator
    answers, the evaluator denies it. *)
Lemma strict_denies_every_comparison (c e r : string) :
  compare_versions c e = Ok r → evaluate_compatibility r "strict" = Ok false.
Proof.
  intros H. apply compare_versions_range in H.
  rewrite !elem_of_cons, elem_of_nil in H.
  destruct H as [-> | [-> | [-> | [-> | [-> | []]]]]]; reflexivity.
Qed.

(** C3, as stated, fails: [backward_minor] and [hybrid] are not modes of
    this evaluator; it raises on them as on any unknown text. *)
Lemma evaluate_compatibility_rejects_hybrid :
  evaluate_compatibility "MINOR_DOWNGRADE" "hybrid" = Raise (unknown_mode "hybrid")
  ∧ evaluate_compatibility "MINOR_DOWNGRADE" "backward_minor"
    = Raise (unknown_mode "backward_minor").
Proof. split; reflexivity. Qed.

(** C3 (amended): the evaluator returns a boolean, without raising, for each
    of the three modes it recognises (strict, forward_minor, override), and
    raises the unknown-mode [ValueError] for any other mode text,
    [backward_minor] and [hybrid] included; an unknown mode is never turned
    into an answer.  [override] always allows; on the four results other
    than equality, [strict] denies all and [forward_minor] allows
    MINOR_UPGRADE only. *)
Theorem evaluate_compatibility_modes (comparison_result mode : string) :
  (mode ∈ recognised_modes →
     ∃ b, evaluate_compatibility comparison_result mode = Ok b)
  ∧ (mode ∉ recognised_modes →
     evaluate_compatibility comparison_result mode = Raise (unknown_mode mode)
     ∧ ∀ b, evaluate_compatibility comparison_result mode ≠ Ok b)
  ∧ evaluate_compatibility comparison_result "override" = Ok true
  ∧ (comparison_result ∈ ["MINOR_UPGRADE"; "MAJOR_UPGRADE";
                          "MINOR_DOWNGRADE"; "MAJOR_DOWNGRADE"] →
     evaluate_compatibility comparison_result "strict" = Ok false
     ∧ evaluate_compatibility comparison_result "forward_minor"
       = Ok (comparison_result == "MINOR_UPGRADE")).
Proof.
  split; [apply evaluate_compatibility_known|].
  split.
  { intros H. rewrite (evaluate_compatibility_unknown _ _ H).
    split; [reflexivity | discriminate]. }
  split; [reflexivity|].
  rewrite !elem_of_cons, elem_of_nil.
  intros [-> | [-> | [-> | [-> | []]]]]; split; reflexivity.
Qed.

(** The amended C3 at a recognised and at an unrecognised mode. *)
Lemma evaluate_compatibility_modes_witness :
  (∃ b, evaluate_compatibility "MINOR_UPGRADE" "forward_minor" = Ok b)
  ∧ evaluate_compatibility "MINOR_UPGRADE" "hybrid" = Raise (unknown_mode "hybrid").
Proof.
  split.
  - apply (evaluate_compatibility_modes "MINOR_UPGRADE" "forward_minor").
    unfold recognised_modes. set_solver.
  - apply (evaluate_compatibility_modes "MINOR_UPGRADE" "hybrid").
    unfold recognised_modes. rewrite !elem_of_cons, elem_of_nil.
    intros [H | [H | [H | []]]]; discriminate H.
Defined.

(** ** Schema drift detector *)

Section Diff.

Context {V : Type} `{EqDecision V}.

(** A field whose value is the same on both sides is never reported. *)
Lemma filter_changed_same (get : string → V) (l : list string) :
  filter (λ field, get field ≠ get field) l = [].
Proof.
  induction l as [|x l IH]; [reflexivity|].
  rewrite filter_cons. destruct (decide (get x ≠ get x)); [congruence | exact IH].
Qed.

End Diff.

(** C9: a contract compared with itself shows no drift: the four lists of
    the result are all empty. *)
Theorem compare_contract_fields_same (X : Contract.t) :
  compare_contract_fields X X
  = {| Drift.added_fields := []; Drift.removed_fields := [];
       Drift.type_changes := []; Drift.required_changes := [] |}.
Proof.
  unfold compare_contract_fields.
  rewrite difference_diag_L, elements_empty.
  rewrite (filter_changed_same (type_of (Contract.get_fields X))).
  rewrite (filter_changed_same (required_of (Contract.get_fields X))).
  reflexivity.
Qed.

(** A baseline document without keys has no field to lose or to change. *)
Lemma compare_contract_fields_empty_baseline (baseline contract : Contract.t) :
  Contract.truthy baseline = false →
  let d := compare_contract_fields baseline contract in
  Drift.removed_fields d = [] ∧ Drift.type_changes d = []
  ∧ Drift.required_changes d = [].
Proof.
  destruct baseline as [[v|] [fs|]]; try discriminate. intros _.
  unfold compare_contract_fields, Contract.get_fields. simpl.
  rewrite dom_empty_L.
  generalize (dom (default ∅ (Contract.fields contract)) : gset string).
  intros actual_set.
  assert ((∅ : gset string) ∖ actual_set = ∅) as ->.
  { apply set_eq. intros x. rewrite elem_of_difference, elem_of_empty. tauto. }
  assert ((∅ : gset string) ∩ actual_set = ∅) as ->.
  { apply set_eq. intros x. rewrite elem_of_intersection, elem_of_empty. tauto. }
  rewrite elements_empty. repeat split; reflexivity.
Qed.

(** ** Impact classifier *)

Lemma drift_has_true field_drift key :
  drift_has field_drift key = true ↔ present_with field_drift key.
Proof.
  unfold drift_has, present_with. destruct field_drift as [d|].
  - rewrite nonempty_true. split; [eauto | intros (? & [= <-] & ?); done].
  - split; [discriminate | intros (? & ? & _); discriminate].
Qed.

Lemma drift_has_false field_drift key :
  drift_has field_drift key = false ↔ ¬ present_with field_drift key.
Proof.
  rewrite <- drift_has_true. destruct (drift_has field_drift key); split; congruence.
Qed.

(** C7: the classifier is the ordered table of six rules, the first that
    matches deciding: label FIELD_BREAKING_CHANGE gives tier 1,
    BREAKING_SCHEMA_CHANGE, review, block; else comparison MAJOR_UPGRADE
    gives tier 1, MAJOR_VERSION_BREAK, review, block; else a drift report
    with type changes gives tier 2; else one with required changes gives
    tier 3; else one with added fields gives tier 4, without review or
    block; otherwise tier 5, NO_IMPACT.  So the label FIELD_BREAKING_CHANGE
    gives tier 1 whatever the comparison, and a missing drift report falls
    to tier 5 unless one of the first two rules matched. *)
Theorem classify_impact_rules (decision_label comparison_result : string)
    (field_drift : option Drift.t) :
  let r := classify_impact decision_label comparison_result field_drift in
  (decision_label = "FIELD_BREAKING_CHANGE" →
     r = Impact.Build 1 "BREAKING_SCHEMA_CHANGE" true true)
  ∧ (decision_label ≠ "FIELD_BREAKING_CHANGE" →
       (comparison_result = "MAJOR_UPGRADE" →
          r = Impact.Build 1 "MAJOR_VERSION_BREAK" true true)
       ∧ (comparison_result ≠ "MAJOR_UPGRADE" →
            (present_with field_drift Drift.type_changes →
               r = Impact.Build 2 "TYPE_CHANGE" true false)
            ∧ (¬ present_with field_drift Drift.type_changes →
                 (present_with field_drift Drift.required_changes →
                    r = Impact.Build 3 "REQUIRED_FLAG_CHANGE" true false)
                 ∧ (¬ present_with field_drift Drift.required_changes →
                      (present_with field_drift Drift.added_fields →
                         r = Impact.Build 4 "ADDITIVE_CHANGE" false false)
                      ∧ (¬ present_with field_drift Drift.added_fields →
                           r = Impact.Build 5 "NO_IMPACT" false false)))
            ∧ (field_drift = None → r = Impact.Build 5 "NO_IMPACT" false false))).
Proof.
  intros r. subst r. unfold classify_impact.
  split.
  { intros ->. reflexivity. }
  intros Hl. apply eqb_false in Hl. rewrite Hl. split.
  { intros ->. reflexivity. }
  intros Hc. apply eqb_false in Hc. rewrite Hc. split; [|split].
  - intros H. apply drift_has_true in H. by rewrite H.
  - intros Ht. apply drift_has_false in Ht. rewrite Ht. split.
    + intros H. apply drift_has_true in H. by rewrite H.
    + intros Hr. apply drift_has_false in Hr. rewrite Hr. split.
      * intros H. apply drift_has_true in H. by rewrite H.
      * intros Ha. apply drift_has_false in Ha. by rewrite Ha.
  - intros ->. reflexivity.
Qed.

(** C7 at a breaking label on a major upgrade, and at an additive drift. *)
Lemma classify_impact_rules_witness :
  classify_impact "FIELD_BREAKING_CHANGE" "MAJOR_UPGRADE" None
  = Impact.Build 1 "BREAKING_SCHEMA_CHANGE" true true
  ∧ classify_impact "HARD_FAIL" "MAJOR_UPGRADE" None
    = Impact.Build 1 "MAJOR_VERSION_BREAK" true true.
Proof.
  split.
  - apply (classify_impact_rules "FIELD_BREAKING_CHANGE" "MAJOR_UPGRADE" None).
    reflexivity.
  - apply (classify_impact_rules "HARD_FAIL" "MAJOR_UPGRADE" None).
    + discriminate.
    + reflexivity.
Defined.

(** ** The orchestrator: layers [6] to [11] *)

(** What the record holds once the comparator and the policy evaluator have
    answered; nothing after them can raise. *)
Lemma evaluate_record env policy baseline contract comparison is_allowed :
  version_comparison (Contract.version contract) (Policy.expected_version policy)
    = Ok comparison →
  evaluate_compatibility comparison (Policy.compatibility_mode policy)
    = Ok is_allowed →
  let field_drift := field_drift_detection baseline contract in
  let breaking := breaking_changes field_drift in
  let label :=
    final_label breaking is_allowed comparison (Policy.compatibility_mode policy) in
  let impact := classify_impact label comparison field_drift in
  ∃ r, evaluate env policy baseline contract = Ok r
       ∧ Report.comparison_result r = comparison
       ∧ Report.compatibility_mode r = Policy.compatibility_mode policy
       ∧ Report.execution_profile r = Policy.get_execution_profile policy
       ∧ Report.allowed r = (if breaking then false else is_allowed)
       ∧ Report.decision r = label
       ∧ Report.severity r = fst (severity_classification label)
       ∧ Report.drift_detected r = snd (severity_classification label)
       ∧ Report.field_drift r = field_drift
       ∧ Report.impact_tier r = Impact.impact_tier impact
       ∧ Report.drift_category r = Impact.drift_category impact
       ∧ Report.cicd_gate r = evaluate_cicd_gate (Impact.impact_tier impact).
Proof.
  intros Hc Ha field_drift breaking label impact.
  unfold evaluate. rewrite Hc. unfold mbind at 1, result_bind.
  rewrite Ha. unfold mbind, result_bind.
  fold field_drift. fold breaking.
  change (if breaking then "FIELD_BREAKING_CHANGE"
          else decision_classification is_allowed comparison
                 (Policy.compatibility_mode policy)) with label.
  fold impact.
  destruct (severity_classification label) as [severity drift_detected].
  eexists. split; [reflexivity|]. simpl. repeat split; reflexivity.
Qed.

(** Conversely a record exists only when both have answered. *)
Lemma evaluate_ok_inv env policy baseline contract r :
  evaluate env policy baseline contract = Ok r →
  ∃ comparison is_allowed,
    version_comparison (Contract.version contract) (Policy.expected_version policy)
      = Ok comparison
    ∧ evaluate_compatibility comparison (Policy.compatibility_mode policy)
      = Ok is_allowed.
Proof.
  unfold evaluate.
  destruct (version_comparison _ _) as [comparison|] eqn:Hc; [|discriminate].
  unfold mbind at 1, result_bind.
  destruct (evaluate_compatibility _ _) as [is_allowed|] eqn:Ha; [|discriminate].
  eauto.
Qed.

Lemma version_comparison_range contract_version expected_version r :
  version_comparison contract_version expected_version = Ok r →
  r ∈ ["MAJOR_UPGRADE"; "MAJOR_DOWNGRADE"; "MINOR_UPGRADE"; "MINOR_DOWNGRADE"; "EQUAL"].
Proof.
  destruct contract_version as [v|]; [apply compare_versions_range | discriminate].
Qed.

(** With a baseline at hand, the flag of layer [9b] is raised exactly when
    the drift report lists a removed field, a type change or a change of the
    required flag. *)
Lemma breaking_changes_baseline (baseline contract : Contract.t) :
  let d := compare_contract_fields baseline contract in
  breaking_changes (field_drift_detection (Some baseline) contract) = true
  ↔ Drift.removed_fields d ≠ [] ∨ Drift.type_changes d ≠ []
    ∨ Drift.required_changes d ≠ [].
Proof.
  intros d. subst d. unfold field_drift_detection.
  destruct (Contract.truthy baseline) eqn:Ht.
  - unfold breaking_changes.
    rewrite !orb_true_iff, !nonempty_true. tauto.
  - destruct (compare_contract_fields_empty_baseline baseline contract Ht)
      as (Hr & Hty & Hrq).
    rewrite Hr, Hty, Hrq. unfold breaking_changes.
    split; [discriminate | tauto].
Qed.

Lemma decision_classification_range is_allowed comparison mode :
  decision_classification is_allowed comparison mode
  ∈ ["HARD_FAIL"; "PASS"; "SOFT_PASS_DRIFT"; "PASS_WITH_FORWARD_COMPAT"].
Proof.
  unfold decision_classification.
  repeat (case_match; [set_solver|]). set_solver.
Qed.

Lemma decision_classification_hard_fail is_allowed comparison mode :
  decision_classification is_allowed comparison mode = "HARD_FAIL"
  ↔ is_allowed = false.
Proof.
  unfold decision_classification. destruct is_allowed; simpl.
  - split; [|discriminate]. repeat case_match; discriminate.
  - done.
Qed.

(** C4: whenever a baseline is available and the drift report against it
    lists a removed field, a type change or a change of the required flag,
    the record carries the label FIELD_BREAKING_CHANGE and allowed = false,
    whatever the comparison, the mode (override included) and the answer of
    the policy evaluator; when these three lists are empty the label and the
    answer of the version logic stand, whatever the added fields. *)
Theorem breaking_drift_dominates env policy baseline contract comparison is_allowed :
  version_comparison (Contract.version contract) (Policy.expected_version policy)
    = Ok comparison →
  evaluate_compatibility comparison (Policy.compatibility_mode policy)
    = Ok is_allowed →
  let d := compare_contract_fields baseline contract in
  ∃ r, evaluate env policy (Some baseline) contract = Ok r
       ∧ (Drift.removed_fields d ≠ [] ∨ Drift.type_changes d ≠ []
          ∨ Drift.required_changes d ≠ [] →
            Report.decision r = "FIELD_BREAKING_CHANGE"
            ∧ Report.allowed r = false)
       ∧ (Drift.removed_fields d = [] → Drift.type_changes d = [] →
          Drift.required_changes d = [] →
            Report.decision r
            = decision_classification is_allowed comparison
                (Policy.compatibility_mode policy)
            ∧ Report.decision r ≠ "FIELD_BREAKING_CHANGE"
            ∧ Report.allowed r = is_allowed).
Proof.
  intros Hc Ha d.
  destruct (evaluate_record env policy (Some baseline) contract _ _ Hc Ha)
    as (r & Hr & _ & _ & _ & Hallowed & Hlabel & _).
  exists r. split; [exact Hr|].
  pose proof (breaking_changes_baseline baseline contract) as Hb.
  fold d in Hb. cbv zeta in Hb.
  rewrite Hallowed, Hlabel. unfold final_label.
  destruct (breaking_changes (field_drift_detection (Some baseline) contract)).
  - split; [done|]. intros H1 H2 H3.
    assert (true = true) as H by reflexivity. apply Hb in H.
    rewrite H1, H2, H3 in H. tauto.
  - split.
    + intros H. apply Hb in H. discriminate.
    + intros _ _ _. split; [reflexivity|]. split; [|reflexivity].
      pose proof (decision_classification_range is_allowed comparison
                    (Policy.compatibility_mode policy)) as Hrange.
      intros Heq. rewrite Heq in Hrange.
      rewrite !elem_of_cons, elem_of_nil in Hrange.
      destruct Hrange as [H | [H | [H | [H | []]]]]; discriminate H.
Qed.

(** C10: in every record the orchestrator assembles, allowed is false
    exactly when the label is HARD_FAIL or FIELD_BREAKING_CHANGE; a record
    labelled PASS, PASS_WITH_FORWARD_COMPAT or SOFT_PASS_DRIFT has allowed
    true; and allowed is false exactly when the severity is CRITICAL. *)
Theorem allowed_matches_label env policy baseline contract r :
  evaluate env policy baseline contract = Ok r →
  (Report.allowed r = false
   ↔ Report.decision r = "HARD_FAIL" ∨ Report.decision r = "FIELD_BREAKING_CHANGE")
  ∧ (Report.decision r ∈ ["PASS"; "PASS_WITH_FORWARD_COMPAT"; "SOFT_PASS_DRIFT"] →
     Report.allowed r = true)
  ∧ (Report.allowed r = false ↔ Report.severity r = "CRITICAL").
Proof.
  intros Hr.
  destruct (evaluate_ok_inv _ _ _ _ _ Hr) as (comparison & is_allowed & Hc & Ha).
  destruct (evaluate_record env policy baseline contract _ _ Hc Ha)
    as (r' & Hr' & _ & _ & _ & Hallowed & Hlabel & Hsev & _).
  assert (r' = r) as -> by congruence.
  rewrite Hallowed, Hsev, Hlabel. unfold final_label.
  destruct (breaking_changes (field_drift_detection baseline contract)).
  { repeat split; auto.
    rewrite !elem_of_cons, elem_of_nil.
    intros [H | [H | [H | []]]]; discriminate H. }
  pose proof (decision_classification_hard_fail is_allowed comparison
                (Policy.compatibility_mode policy)) as Hhf.
  pose proof (decision_classification_range is_allowed comparison
                (Policy.compatibility_mode policy)) as Hrange.
  rewrite !elem_of_cons, elem_of_nil in Hrange.
  set (label := decision_classification is_allowed comparison
                  (Policy.compatibility_mode policy)) in *.
  split; [|split].
  - rewrite <- Hhf. split; [auto|]. intros [H | H]; [exact H|].
    rewrite H in Hrange.
    destruct Hrange as [E | [E | [E | [E | []]]]]; discriminate E.
  - rewrite !elem_of_cons, elem_of_nil. intros H.
    destruct is_allowed; [reflexivity|].
    assert (label = "HARD_FAIL") as Hl by (apply Hhf; reflexivity).
    rewrite Hl in H. destruct H as [E | [E | [E | []]]]; discriminate E.
  - rewrite <- Hhf.
    destruct Hrange as [E | [E | [E | [E | []]]]]; rewrite E;
      split; (reflexivity || discriminate).
Qed.

(** C4 at a removed field under [override] and a minor upgrade, where the
    version logic alone would soft-pass. *)
Lemma breaking_drift_dominates_witness :
  ∃ r, evaluate Samples.env (Samples.policy "override" "batch")
         (Some Samples.baseline) (Samples.with_fields "2.1" ∅) = Ok r
       ∧ Report.decision r = "FIELD_BREAKING_CHANGE"
       ∧ Report.allowed r = false.
Proof.
  destruct (breaking_drift_dominates Samples.env (Samples.policy "override" "batch")
              Samples.baseline (Samples.with_fields "2.1" ∅) "MINOR_UPGRADE" true)
    as (r & Hr & Hbreak & _).
  - vm_compute. reflexivity.
  - vm_compute. reflexivity.
  - exists r. split; [exact Hr|]. apply Hbreak. left. vm_compute. discriminate.
Defined.

(** C10 at a record of a denied major upgrade. *)
Lemma allowed_matches_label_witness :
  ∃ r, evaluate Samples.env (Samples.policy "strict" "batch") None
         (Samples.bare "3.0") = Ok r
       ∧ (Report.allowed r = false
          ↔ Report.decision r = "HARD_FAIL"
            ∨ Report.decision r = "FIELD_BREAKING_CHANGE").
Proof.
  destruct (evaluate Samples.env (Samples.policy "strict" "batch") None
              (Samples.bare "3.0")) as [r|e] eqn:E.
  - exists r. split; [reflexivity|].
    apply (allowed_matches_label _ _ _ _ r E).
  - vm_compute in E. discriminate E.
Defined.

(** The label PASS is out of reach: it needs the comparison text
    ["EXACT_MATCH"], and the comparator's text for equal versions is
    ["EQUAL"]. *)
Lemma pass_unreachable env policy baseline contract r :
  evaluate env policy baseline contract = Ok r → Report.decision r ≠ "PASS".
Proof.
  intros Hr.
  destruct (evaluate_ok_inv _ _ _ _ _ Hr) as (comparison & is_allowed & Hc & Ha).
  destruct (evaluate_record env policy baseline contract _ _ Hc Ha)
    as (r' & Hr' & _ & _ & _ & _ & Hlabel & _).
  assert (r' = r) as -> by congruence.
  rewrite Hlabel. unfold final_label, decision_classification.
  apply version_comparison_range in Hc.
  rewrite !elem_of_cons, elem_of_nil in Hc.
  destruct (breaking_changes _); [discriminate|].
  destruct is_allowed; simpl; [|discriminate].
  destruct Hc as [-> | [-> | [-> | [-> | [-> | []]]]]];
    simpl; case_match; discriminate.
Qed.

(** C1 at its failing input: versions "2.0" and "2.0" compare as EQUAL,
    [override] allows, no baseline is at hand, and the label is
    SOFT_PASS_DRIFT where the claim says PASS. *)
Theorem equal_allowed_is_not_pass :
  ∃ r, evaluate Samples.env (Samples.policy "override" "batch") None
         (Samples.bare "2.0") = Ok r
       ∧ Report.comparison_result r = "EQUAL"
       ∧ Report.allowed r = true
       ∧ Report.field_drift r = None
       ∧ Report.decision r = "SOFT_PASS_DRIFT".
Proof. eexists. split; [vm_compute; reflexivity|]. repeat split. Qed.

(** ** Termination and enforcement: layers [11b] and [12] *)

(** The handler always ends the run with the code it is given, after
    logging the reason and the code. *)
Lemma terminate_pipeline_exits {A} reason_message code (w : World.t) :
  terminate_pipeline (A := A) reason_message code false w
  = (Raise (SystemExit code), add_log w (termination_lines reason_message code)).
Proof.
  unfold terminate_pipeline, add_log, termination_lines, when, emit, raise.
  unfold mbind, M_bind. simpl. rewrite <- !app_assoc. reflexivity.
Qed.

Lemma profile_enforcement_allowed execution_profile (w : World.t) :
  profile_enforcement true execution_profile w = (Ok (), w).
Proof. reflexivity. Qed.

Lemma profile_enforcement_batch (w : World.t) :
  profile_enforcement false "batch" w
  = (Raise (SystemExit 2),
     add_log w (termination_lines "Compatibility enforcement failed (batch mode)." 2)).
Proof. unfold profile_enforcement. simpl. apply terminate_pipeline_exits. Qed.

Lemma profile_enforcement_unknown execution_profile (w : World.t) :
  execution_profile ≠ "batch" → execution_profile ≠ "streaming" →
  profile_enforcement false execution_profile w
  = (Raise (SystemExit 2),
     add_log w (termination_lines
                  ("Unknown execution profile: " ++ execution_profile) 2)).
Proof.
  intros Hb Hs. apply eqb_false in Hb, Hs.
  unfold profile_enforcement. rewrite Hb, Hs. simpl.
  apply terminate_pipeline_exits.
Qed.

Lemma run_evaluated env policy baseline contract r :
  evaluate env policy baseline contract = Ok r →
  run env policy baseline contract
  = profile_enforcement (Report.allowed r) (Report.execution_profile r)
      (audited env r).
Proof.
  intros Hr. unfold run, main, lift. rewrite Hr.
  unfold mbind, M_bind, write_compatibility_report, when, emit, audited, add_log.
  simpl. rewrite insert_empty.
  destruct (Gate.blocks_pipeline (Report.cicd_gate r)); reflexivity.
Qed.

(** A run whose evaluation raises ends with that exception and leaves no
    report. *)
Lemma run_raised env policy baseline contract e :
  evaluate env policy baseline contract = Raise e →
  run env policy baseline contract = (Raise e, World.init).
Proof. intros Hr. unfold run, main, lift. rewrite Hr. reflexivity. Qed.

(** C5, as stated, fails: with expected "2.0", contract "3.0", [strict] and
    the batch profile, a baseline whose field the contract has dropped turns
    the label into FIELD_BREAKING_CHANGE, not HARD_FAIL. *)
Lemma major_upgrade_with_removed_field :
  ∃ r, evaluate Samples.env (Samples.policy "strict" "batch")
         (Some Samples.baseline) (Samples.with_fields "3.0" ∅) = Ok r
       ∧ Report.comparison_result r = "MAJOR_UPGRADE"
       ∧ Report.decision r = "FIELD_BREAKING_CHANGE".
Proof. eexists. split; [vm_compute; reflexivity|]. split; reflexivity. Qed.

(** C5 (amended): with expected version "2.0", contract version "3.0", mode
    [strict] and the batch profile, the comparison is MAJOR_UPGRADE, allowed
    is false, the impact tier is 1, the gate is BLOCK and the run ends
    through the termination handler with exit code 2, the record being on
    file; the label is HARD_FAIL unless the drift against a baseline is
    breaking, in which case it is FIELD_BREAKING_CHANGE. *)
Theorem scenario_major_upgrade_strict_batch env policy baseline contract :
  Policy.expected_version policy = "2.0" →
  Contract.version contract = Some "3.0" →
  Policy.compatibility_mode policy = "strict" →
  Policy.get_execution_profile policy = "batch" →
  ∃ r w,
    evaluate env policy baseline contract = Ok r
    ∧ run env policy baseline contract = (Raise (SystemExit 2), w)
    ∧ exit_code (fst (run env policy baseline contract)) = 2
    ∧ World.reports w !! report_path env "reports" = Some r
    ∧ (ERROR, "GOVERNANCE EXIT CODE: 2") ∈ World.log w
    ∧ Report.comparison_result r = "MAJOR_UPGRADE"
    ∧ Report.allowed r = false
    ∧ Report.decision r
      = (if breaking_changes (field_drift_detection baseline contract)
         then "FIELD_BREAKING_CHANGE" else "HARD_FAIL")
    ∧ Report.impact_tier r = 1
    ∧ Gate.gate_status (Report.cicd_gate r) = "BLOCK".
Proof.
  intros Hexp Hver Hmode Hprofile.
  assert (Hc : version_comparison (Contract.version contract)
                 (Policy.expected_version policy) = Ok "MAJOR_UPGRADE")
    by (rewrite Hexp, Hver; reflexivity).
  assert (Ha : evaluate_compatibility "MAJOR_UPGRADE"
                 (Policy.compatibility_mode policy) = Ok false)
    by (rewrite Hmode; reflexivity).
  destruct (evaluate_record env policy baseline contract _ _ Hc Ha)
    as (r & Hr & Hcmp & _ & Hprof & Hallowed & Hlabel & _ & _ & _ & Htier & _ & Hgate).
  rewrite Hmode in Hlabel, Htier, Hgate.
  set (breaking := breaking_changes (field_drift_detection baseline contract)) in *.
  assert (Hfalse : Report.allowed r = false) by (rewrite Hallowed; by destruct breaking).
  assert (Hlab : Report.decision r
                 = if breaking then "FIELD_BREAKING_CHANGE" else "HARD_FAIL")
    by (rewrite Hlabel; by destruct breaking).
  assert (Ht1 : Impact.impact_tier
                  (classify_impact
                     (final_label breaking false "MAJOR_UPGRADE" "strict")
                     "MAJOR_UPGRADE" (field_drift_detection baseline contract)) = 1)
    by (destruct breaking; reflexivity).
  pose proof (run_evaluated _ _ _ _ _ Hr) as Hrun.
  rewrite Hfalse, Hprof, Hprofile, profile_enforcement_batch in Hrun.
  eexists r, _. split; [exact Hr|]. split; [exact Hrun|].
  rewrite Hrun. split; [reflexivity|]. split.
  { unfold add_log, audited. simpl. apply lookup_singleton_eq. }
  split.
  { unfold add_log, termination_lines. simpl.
    apply elem_of_app. right. set_solver. }
  split; [exact Hcmp|]. split; [exact Hfalse|]. split; [exact Hlab|].
  split; [by rewrite Htier|]. by rewrite Hgate, Ht1.
Qed.

(** The amended C5 without a baseline: the label is HARD_FAIL. *)
Lemma scenario_major_upgrade_strict_batch_witness :
  ∃ r, evaluate Samples.env (Samples.policy "strict" "batch") None
         (Samples.bare "3.0") = Ok r
       ∧ exit_code (fst (run Samples.env (Samples.policy "strict" "batch") None
                           (Samples.bare "3.0"))) = 2
       ∧ Report.decision r = "HARD_FAIL"
       ∧ Gate.gate_status (Report.cicd_gate r) = "BLOCK".
Proof.
  destruct (scenario_major_upgrade_strict_batch Samples.env
              (Samples.policy "strict" "batch") None (Samples.bare "3.0"))
    as (r & w & Hr & _ & Hexit & _ & _ & _ & _ & Hlabel & _ & Hgate);
    try reflexivity.
  exists r. split; [exact Hr|]. split; [exact Hexit|].
  split; [exact Hlabel | exact Hgate].
Defined.

(** C8, as stated, fails: the profile is read only when the decision is not
    allowed, so an allowed run under an unknown profile runs to its end with
    exit code 0. *)
Lemma unknown_profile_allowed_completes :
  Policy.get_execution_profile (Samples.policy "forward_minor" "nightly") = "nightly"
  ∧ fst (run Samples.env (Samples.policy "forward_minor" "nightly") None
           (Samples.bare "2.1")) = Ok ()
  ∧ exit_code (fst (run Samples.env (Samples.policy "forward_minor" "nightly") None
                      (Samples.bare "2.1"))) = 0.
Proof. repeat split; vm_compute; reflexivity. Qed.

(** C8 (amended): for every run whose execution profile is neither "batch"
    nor "streaming" and whose governance decision is not allowed, the run
    ends through the termination handler with exit code 2, the unknown
    profile being the logged reason; when the decision is allowed the
    profile is not consulted and the run completes with exit code 0. *)
Theorem unknown_profile_enforcement env policy baseline contract r :
  Policy.get_execution_profile policy ≠ "batch" →
  Policy.get_execution_profile policy ≠ "streaming" →
  evaluate env policy baseline contract = Ok r →
  let outcome := run env policy baseline contract in
  (Report.allowed r = false →
     outcome
     = terminate_pipeline
         ("Unknown execution profile: " ++ Policy.get_execution_profile policy)
         2 false (audited env r)
     ∧ fst outcome = Raise (SystemExit 2)
     ∧ exit_code (fst outcome) = 2
     ∧ (ERROR, "Unknown execution profile: " ++ Policy.get_execution_profile policy)
       ∈ World.log (snd outcome))
  ∧ (Report.allowed r = true →
     outcome = (Ok (), audited env r) ∧ exit_code (fst outcome) = 0).
Proof.
  intros Hb Hs Hr outcome. subst outcome.
  rewrite (run_evaluated _ _ _ _ _ Hr).
  destruct (evaluate_ok_inv _ _ _ _ _ Hr) as (comparison & is_allowed & Hc & Ha).
  destruct (evaluate_record env policy baseline contract _ _ Hc Ha)
    as (r' & Hr' & _ & _ & Hprof & _).
  assert (r' = r) as -> by congruence.
  rewrite Hprof. split.
  - intros ->. rewrite (profile_enforcement_unknown _ _ Hb Hs).
    rewrite terminate_pipeline_exits. repeat split.
    unfold add_log, termination_lines. simpl.
    apply elem_of_app. right. set_solver.
  - intros ->. rewrite profile_enforcement_allowed. split; reflexivity.
Qed.

(** The amended C8 at a denied major upgrade under the profile "nightly". *)
Lemma unknown_profile_enforcement_witness :
  ∃ r, evaluate Samples.env (Samples.policy "strict" "nightly") None
         (Samples.bare "3.0") = Ok r
       ∧ fst (run Samples.env (Samples.policy "strict" "nightly") None
                (Samples.bare "3.0")) = Raise (SystemExit 2).
Proof.
  destruct (evaluate Samples.env (Samples.policy "strict" "nightly") None
              (Samples.bare "3.0")) as [r|e] eqn:E.
  - exists r. split; [reflexivity|].
    apply (unknown_profile_enforcement Samples.env
             (Samples.policy "strict" "nightly") None (Samples.bare "3.0") r);
      [discriminate | discriminate | exact E |].
    vm_compute in E. injection E as <-. reflexivity.
  - vm_compute in E. discriminate E.
Defined.

(** * Further properties of the engine *)

(** ** The comparator as an order on versions *)

Lemma split_not_nil (sep : ascii) (s : string) : Py.split sep s ≠ [].
Proof.
  destruct s as [|c r]; simpl; [discriminate|].
  destruct (Ascii.eqb c sep); [discriminate|].
  destruct (Py.split sep r); discriminate.
Qed.

(** The pieces are one more than the separators. *)
Lemma split_length (sep : ascii) (s : string) :
  length (Py.split sep s) = S (occurrences sep s).
Proof.
  induction s as [|c r IH]; simpl; [reflexivity|].
  destruct (Ascii.eqb c sep); simpl.
  - by rewrite IH.
  - pose proof (split_not_nil sep r) as Hne.
    destruct (Py.split sep r) as [|h t]; [done|]. simpl in *. exact IH.
Qed.

Lemma parse_version_one_dot (version : string) (parts : Z * Z) :
  parse_version version = Some parts → occurrences "." version = 1%nat.
Proof.
  unfold parse_version. intros H.
  pose proof (split_length "." version) as Hlen.
  destruct (Py.split "." version) as [|a [|b [|? ?]]]; try discriminate.
  simpl in Hlen. lia.
Qed.

(** X1: a version text that does not hold exactly one dot is refused on
    either side of the comparison, whatever the other text is. *)
Theorem compare_versions_needs_one_dot (version other : string) :
  occurrences "." version ≠ 1%nat →
  compare_versions version other = Raise invalid_version_format
  ∧ compare_versions other version = Raise invalid_version_format.
Proof.
  intros Hdots.
  assert (parse_version version = None) as Hnone.
  { destruct (parse_version version) as [parts|] eqn:E; [|reflexivity].
    apply parse_version_one_dot in E. contradiction. }
  unfold compare_versions. rewrite Hnone. split.
  - destruct (parse_version other) as [[? ?]|]; reflexivity.
  - destruct (parse_version other) as [[? ?]|]; reflexivity.
Qed.

Lemma compare_versions_needs_one_dot_witness :
  compare_versions "2.0.1" "2.0" = Raise invalid_version_format
  ∧ compare_versions "2.0" "2.0.1" = Raise invalid_version_format.
Proof.
  apply (compare_versions_needs_one_dot "2.0.1" "2.0"). simpl. lia.
Defined.

(** X2: exchanging the two versions turns every upgrade into the downgrade
    of the same rank and back, keeps EQUAL, and keeps a refusal a refusal. *)
Theorem compare_versions_swap (a b : string) :
  match compare_versions a b with
  | Ok r => compare_versions b a = Ok (opposite r)
  | Raise e => compare_versions b a = Raise e
  end.
Proof.
  unfold compare_versions.
  destruct (parse_version a) as [[aM am]|], (parse_version b) as [[bM bm]|];
    try reflexivity.
  destruct (Z.eqb_spec aM bM) as [->|Hne]; simpl.
  - rewrite Z.eqb_refl. simpl.
    destruct (Z.gtb_spec am bm), (Z.ltb_spec am bm), (Z.gtb_spec bm am),
      (Z.ltb_spec bm am); try lia; reflexivity.
  - destruct (Z.eqb_spec bM aM) as [->|_]; [done|]. simpl.
    destruct (Z.gtb_spec aM bM), (Z.gtb_spec bM aM); try lia; reflexivity.
Qed.

(** X3: the answer is EQUAL exactly when both texts read as the same pair of
    numbers, however they are written. *)
Theorem compare_versions_equal_iff (a b : string) :
  compare_versions a b = Ok "EQUAL"
  ↔ ∃ major minor, version_parts a major minor ∧ version_parts b major minor.
Proof.
  split.
  - unfold compare_versions.
    destruct (parse_version b) as [[bM bm]|] eqn:Hb; [|discriminate].
    destruct (parse_version a) as [[aM am]|] eqn:Ha; [|discriminate].
    apply parse_version_parts in Ha, Hb.
    destruct (Z.eqb_spec aM bM) as [->|Hne]; simpl.
    + destruct (Z.gtb_spec am bm); [discriminate|].
      destruct (Z.ltb_spec am bm); [discriminate|].
      intros _. assert (am = bm) as -> by lia. eauto.
    + destruct (aM >? bM); discriminate.
  - intros (major & minor & Ha & Hb).
    apply parse_version_parts in Ha, Hb.
    rewrite (compare_versions_parsed _ _ _ _ _ _ Ha Hb).
    rewrite Z.eqb_refl. simpl.
    destruct (Z.gtb_spec minor minor), (Z.ltb_spec minor minor); try lia.
    reflexivity.
Qed.

(** The five answers, each with the relation of the numbers it stands for. *)
Lemma compare_versions_cases (a b : string) (aM am bM bm : Z) :
  parse_version a = Some (aM, am) → parse_version b = Some (bM, bm) →
  (aM > bM ∧ compare_versions a b = Ok "MAJOR_UPGRADE")
  ∨ (aM < bM ∧ compare_versions a b = Ok "MAJOR_DOWNGRADE")
  ∨ (aM = bM ∧ am > bm ∧ compare_versions a b = Ok "MINOR_UPGRADE")
  ∨ (aM = bM ∧ am < bm ∧ compare_versions a b = Ok "MINOR_DOWNGRADE")
  ∨ (aM = bM ∧ am = bm ∧ compare_versions a b = Ok "EQUAL").
Proof.
  intros Ha Hb. rewrite (compare_versions_parsed _ _ _ _ _ _ Ha Hb).
  destruct (Z.eqb_spec aM bM); simpl.
  - destruct (Z.gtb_spec am bm).
    { do 2 right. left. repeat split; try done; lia. }
    destruct (Z.ltb_spec am bm).
    { do 3 right. left. repeat split; try done; lia. }
    do 4 right. repeat split; try done; lia.
  - destruct (Z.gtb_spec aM bM).
    { left. split; [lia | done]. }
    right. left. split; [lia | done].
Qed.

Lemma compare_versions_ok_parsed (a b r : string) :
  compare_versions a b = Ok r →
  ∃ aM am bM bm, parse_version a = Some (aM, am) ∧ parse_version b = Some (bM, bm).
Proof.
  unfold compare_versions.
  destruct (parse_version b) as [[bM bm]|]; [|discriminate].
  destruct (parse_version a) as [[aM am]|]; [|discriminate].
  intros _. eauto 10.
Qed.

(** X4: not being older composes: if [a] is not older than [b] and [b] not
    older than [c], then [a] is not older than [c], and a major upgrade in
    either step makes the whole a major upgrade. *)
Theorem compare_versions_not_older_trans (a b c r1 r2 : string) :
  compare_versions a b = Ok r1 → compare_versions b c = Ok r2 →
  not_older r1 → not_older r2 →
  ∃ r3, compare_versions a c = Ok r3 ∧ not_older r3
        ∧ (r1 = "MAJOR_UPGRADE" ∨ r2 = "MAJOR_UPGRADE" → r3 = "MAJOR_UPGRADE")
        ∧ (r1 = "EQUAL" → r3 = r2) ∧ (r2 = "EQUAL" → r3 = r1).
Proof.
  intros Hab Hbc Hn1 Hn2.
  destruct (compare_versions_ok_parsed _ _ _ Hab) as (aM & am & bM & bm & Ha & Hb).
  destruct (compare_versions_ok_parsed _ _ _ Hbc) as (? & ? & cM & cm & Hb' & Hc).
  rewrite Hb in Hb'. injection Hb' as <- <-.
  unfold not_older in *. rewrite !elem_of_cons, !elem_of_nil in Hn1, Hn2.
  destruct (compare_versions_cases _ _ _ _ _ _ Ha Hb)
    as [[? E1] | [[? E1] | [(? & ? & E1) | [(? & ? & E1) | (? & ? & E1)]]]];
    rewrite E1 in Hab; injection Hab as <-;
    try (destruct Hn1 as [Hn1 | [Hn1 | [Hn1 | []]]]; discriminate Hn1);
    (destruct (compare_versions_cases _ _ _ _ _ _ Hb Hc)
      as [[? E2] | [[? E2] | [(? & ? & E2) | [(? & ? & E2) | (? & ? & E2)]]]];
     rewrite E2 in Hbc; injection Hbc as <-;
     try (destruct Hn2 as [Hn2 | [Hn2 | [Hn2 | []]]]; discriminate Hn2));
    (destruct (compare_versions_cases _ _ _ _ _ _ Ha Hc)
      as [[? E3] | [[? E3] | [(? & ? & E3) | [(? & ? & E3) | (? & ? & E3)]]]];
     try lia);
    (eexists; split; [exact E3|]);
    rewrite !elem_of_cons; intuition (try discriminate; auto).
Qed.

Lemma compare_versions_not_older_trans_witness :
  ∃ r3, compare_versions "3.1" "2.0" = Ok r3 ∧ r3 = "MAJOR_UPGRADE".
Proof.
  destruct (compare_versions_not_older_trans "3.1" "3.0" "2.0"
              "MINOR_UPGRADE" "MAJOR_UPGRADE")
    as (r3 & H3 & _ & Hmaj & _); try reflexivity.
  - unfold not_older. rewrite !elem_of_cons. auto.
  - unfold not_older. rewrite !elem_of_cons. auto.
  - exists r3. split; [exact H3 | apply Hmaj; auto].
Defined.

(** ** The policy on compared versions *)

Lemma compare_versions_of_parts (c e : string) (cM cm eM em : Z) :
  version_parts c cM cm → version_parts e eM em →
  (cM > eM ∧ compare_versions c e = Ok "MAJOR_UPGRADE")
  ∨ (cM < eM ∧ compare_versions c e = Ok "MAJOR_DOWNGRADE")
  ∨ (cM = eM ∧ cm > em ∧ compare_versions c e = Ok "MINOR_UPGRADE")
  ∨ (cM = eM ∧ cm < em ∧ compare_versions c e = Ok "MINOR_DOWNGRADE")
  ∨ (cM = eM ∧ cm = em ∧ compare_versions c e = Ok "EQUAL").
Proof.
  intros Hc He. apply parse_version_parts in Hc, He.
  by apply compare_versions_cases.
Qed.

(** Decide the boolean comparisons of a goal from the order facts at hand. *)
Ltac decide_order :=
  repeat match goal with
         | |- context [?a =? ?b] => destruct (Z.eqb_spec a b); simpl
         | |- context [?a >? ?b] => destruct (Z.gtb_spec a b); simpl
         | |- context [?a <? ?b] => destruct (Z.ltb_spec a b); simpl
         | |- context [?a >=? ?b] => destruct (Z.geb_spec a b); simpl
         | |- context [?a <=? ?b] => destruct (Z.leb_spec a b); simpl
         end; try reflexivity; try lia.

(** X5: on two well-formed versions the evaluator, fed with the comparator's
    answer, denies under [strict] whatever the versions, allows under
    [forward_minor] exactly when the majors agree and the contract's minor is
    strictly greater, and allows under [override]. *)
Theorem policy_on_versions (c e : string) (cM cm eM em : Z) :
  version_parts c cM cm → version_parts e eM em →
  ∃ r, compare_versions c e = Ok r
       ∧ evaluate_compatibility r "strict" = Ok false
       ∧ evaluate_compatibility r "forward_minor" = Ok ((cM =? eM) && (cm >? em))
       ∧ evaluate_compatibility r "override" = Ok true.
Proof.
  intros Hc He.
  destruct (compare_versions_of_parts _ _ _ _ _ _ Hc He)
    as [[? E] | [[? E] | [(? & ? & E) | [(? & ? & E) | (? & ? & E)]]]];
    eexists; (split; [exact E|]); repeat split; unfold evaluate_compatibility;
    simpl; f_equal; decide_order.
Qed.

Lemma policy_on_versions_witness :
  ∃ r, compare_versions "2.0" "2.0" = Ok r
       ∧ evaluate_compatibility r "forward_minor" = Ok false.
Proof.
  destruct (policy_on_versions "2.0" "2.0" 2 0 2 0) as (r & Hr & _ & Hf & _).
  - exists "2", "0". repeat split; reflexivity.
  - exists "2", "0". repeat split; reflexivity.
  - exists r. split; [exact Hr | exact Hf].
Defined.

(** X6: whatever the comparator answers other than MINOR_UPGRADE (equal
    versions, any downgrade, a major upgrade) is allowed under no mode but
    [override]. *)
Theorem only_override_allows (c e r mode : string) :
  compare_versions c e = Ok r → r ≠ "MINOR_UPGRADE" →
  evaluate_compatibility r mode = Ok true → mode = "override".
Proof.
  intros Hr Hne Hallowed.
  apply compare_versions_range in Hr.
  destruct (evaluate_compatibility_allowed _ _ Hallowed) as [H | [H | [_ H]]];
    [exact H | | contradiction].
  subst r. rewrite !elem_of_cons, elem_of_nil in Hr.
  destruct Hr as [E | [E | [E | [E | [E | []]]]]]; discriminate E.
Qed.

Lemma only_override_allows_witness :
  evaluate_compatibility "MAJOR_UPGRADE" "override" = Ok true
  ∧ "override" = "override".
Proof.
  split; [reflexivity|].
  apply (only_override_allows "3.0" "2.0" "MAJOR_UPGRADE" "override");
    [reflexivity | discriminate | reflexivity].
Defined.

(** ** The earlier engine *)

(** X7: the evaluator of the earlier script, fed with the comparator's
    answer on two well-formed versions, allows under [strict] exactly the
    same numbers, under [forward_minor] the same major with a minor not
    smaller, under [backward_minor] the same major with a minor not greater,
    and under [hybrid] exactly the same major. *)
Theorem day14_policy_on_versions (c e : string) (cM cm eM em : Z) :
  version_parts c cM cm → version_parts e eM em →
  ∃ r, compare_versions c e = Ok r
       ∧ Day14.evaluate_compatibility r "strict" = Ok ((cM =? eM) && (cm =? em))
       ∧ Day14.evaluate_compatibility r "forward_minor"
         = Ok ((cM =? eM) && (cm >=? em))
       ∧ Day14.evaluate_compatibility r "backward_minor"
         = Ok ((cM =? eM) && (cm <=? em))
       ∧ Day14.evaluate_compatibility r "hybrid" = Ok (cM =? eM).
Proof.
  intros Hc He.
  destruct (compare_versions_of_parts _ _ _ _ _ _ Hc He)
    as [[? E] | [[? E] | [(? & ? & E) | [(? & ? & E) | (? & ? & E)]]]];
    eexists; (split; [exact E|]); repeat split;
    unfold Day14.evaluate_compatibility; simpl; f_equal; decide_order.
Qed.

Lemma day14_policy_on_versions_witness :
  ∃ r, compare_versions "2.0" "2.3" = Ok r
       ∧ Day14.evaluate_compatibility r "hybrid" = Ok true.
Proof.
  destruct (day14_policy_on_versions "2.0" "2.3" 2 0 2 3)
    as (r & Hr & _ & _ & _ & Hh).
  - exists "2", "0". repeat split; reflexivity.
  - exists "2", "3". repeat split; reflexivity.
  - exists r. split; [exact Hr | exact Hh].
Defined.

(** X8: on the two modes both evaluators know, [strict] and
    [forward_minor], they agree on every answer of the comparator except
    EQUAL, which the earlier one allows and the current one denies. *)
Theorem evaluators_differ_on_equal (c e r mode : string) :
  compare_versions c e = Ok r → mode ∈ ["strict"; "forward_minor"] →
  (r ≠ "EQUAL" →
     evaluate_compatibility r mode = Day14.evaluate_compatibility r mode)
  ∧ (r = "EQUAL" →
       evaluate_compatibility r mode = Ok false
       ∧ Day14.evaluate_compatibility r mode = Ok true).
Proof.
  intros Hr Hmode. apply compare_versions_range in Hr.
  rewrite !elem_of_cons, elem_of_nil in Hr.
  rewrite !elem_of_cons, elem_of_nil in Hmode.
  destruct Hmode as [-> | [-> | []]];
    destruct Hr as [-> | [-> | [-> | [-> | [-> | []]]]]];
    split; intros H; try discriminate H; try contradiction;
    try (split; reflexivity); reflexivity.
Qed.

Lemma evaluators_differ_on_equal_witness :
  evaluate_compatibility "EQUAL" "strict" = Ok false
  ∧ Day14.evaluate_compatibility "EQUAL" "strict" = Ok true.
Proof.
  apply (evaluators_differ_on_equal "2.0" "2.0" "EQUAL" "strict");
    [reflexivity | rewrite !elem_of_cons; auto | reflexivity].
Defined.

(** X9: the enforcement step of the earlier script lets the run go on
    exactly when its evaluator allows, and otherwise ends it through the
    termination handler with exit code 2, the mode and the comparison named
    in the logged reason; a missing or malformed version and an unknown mode
    escape as the [ValueError], without any log line. *)
Theorem day14_enforcement_outcome (policy : Policy.t) (contract : Contract.t)
    (w : World.t) :
  let mode := Policy.compatibility_mode policy in
  match version_comparison (Contract.version contract)
          (Policy.expected_version policy) with
  | Raise e => Day14.enforcement policy contract w = (Raise e, w)
  | Ok r =>
      match Day14.evaluate_compatibility r mode with
      | Raise e => Day14.enforcement policy contract w = (Raise e, w)
      | Ok true => Day14.enforcement policy contract w = (Ok (), w)
      | Ok false =>
          Day14.enforcement policy contract w
          = (Raise (SystemExit 2),
             add_log w (termination_lines (Day14.failure_message mode r) 2))
      end
  end.
Proof.
  intros mode. subst mode. unfold Day14.enforcement, lift.
  unfold mbind, M_bind.
  destruct (version_comparison _ _) as [r|e]; [|reflexivity].
  destruct (Day14.evaluate_compatibility _ _) as [[|]|e]; try reflexivity.
  simpl negb. cbv iota.
  apply terminate_pipeline_exits.
Qed.

(** ** What the drift report lists *)

Section Drift_membership.

Variables expected_contract actual_contract : Contract.t.

Let report := compare_contract_fields expected_contract actual_contract.

Lemma elem_of_added (f : string) :
  f ∈ Drift.added_fields report
  ↔ field_of expected_contract f = None ∧ is_Some (field_of actual_contract f).
Proof.
  unfold report, compare_contract_fields, field_of. simpl.
  rewrite elem_of_elements, elem_of_difference, elem_of_dom, not_elem_of_dom.
  tauto.
Qed.

Lemma elem_of_removed (f : string) :
  f ∈ Drift.removed_fields report
  ↔ is_Some (field_of expected_contract f) ∧ field_of actual_contract f = None.
Proof.
  unfold report, compare_contract_fields, field_of. simpl.
  rewrite elem_of_elements, elem_of_difference, elem_of_dom, not_elem_of_dom.
  tauto.
Qed.

Lemma elem_of_type_changes (f : string) :
  f ∈ Drift.type_changes report
  ↔ ∃ d d', field_of expected_contract f = Some d
            ∧ field_of actual_contract f = Some d'
            ∧ Field.type d ≠ Field.type d'.
Proof.
  unfold report, compare_contract_fields, field_of, type_of. simpl.
  rewrite list_elem_of_filter, elem_of_elements, elem_of_intersection, !elem_of_dom.
  split.
  - intros (Hne & [d Hd] & [d' Hd']). rewrite Hd, Hd' in Hne. simpl in Hne.
    eauto 10.
  - intros (d & d' & Hd & Hd' & Hne). rewrite Hd, Hd'. simpl. eauto.
Qed.

Lemma elem_of_required_changes (f : string) :
  f ∈ Drift.required_changes report
  ↔ ∃ d d', field_of expected_contract f = Some d
            ∧ field_of actual_contract f = Some d'
            ∧ Field.required d ≠ Field.required d'.
Proof.
  unfold report, compare_contract_fields, field_of, required_of. simpl.
  rewrite list_elem_of_filter, elem_of_elements, elem_of_intersection, !elem_of_dom.
  split.
  - intros (Hne & [d Hd] & [d' Hd']). rewrite Hd, Hd' in Hne. simpl in Hne.
    eauto 10.
  - intros (d & d' & Hd & Hd' & Hne). rewrite Hd, Hd'. simpl. eauto.
Qed.

Lemma drift_lists_nodup :
  NoDup (Drift.added_fields report) ∧ NoDup (Drift.removed_fields report)
  ∧ NoDup (Drift.type_changes report) ∧ NoDup (Drift.required_changes report).
Proof.
  unfold report, compare_contract_fields. simpl.
  repeat split; try apply NoDup_elements; apply NoDup_filter, NoDup_elements.
Qed.

End Drift_membership.

(** X10: what the four lists hold: a field is added when only the actual
    contract has it, removed when only the expected contract has it, a type
    change when both have it with different types, and a required change
    when both have it with different required flags (a missing key counting
    as a value of its own). *)
Theorem drift_membership (expected_contract actual_contract : Contract.t)
    (f : string) :
  let report := compare_contract_fields expected_contract actual_contract in
  (f ∈ Drift.added_fields report
   ↔ field_of expected_contract f = None ∧ is_Some (field_of actual_contract f))
  ∧ (f ∈ Drift.removed_fields report
     ↔ is_Some (field_of expected_contract f) ∧ field_of actual_contract f = None)
  ∧ (f ∈ Drift.type_changes report
     ↔ ∃ d d', field_of expected_contract f = Some d
               ∧ field_of actual_contract f = Some d'
               ∧ Field.type d ≠ Field.type d')
  ∧ (f ∈ Drift.required_changes report
     ↔ ∃ d d', field_of expected_contract f = Some d
               ∧ field_of actual_contract f = Some d'
               ∧ Field.required d ≠ Field.required d').
Proof.
  intros report. subst report.
  split; [apply elem_of_added|]. split; [apply elem_of_removed|].
  split; [apply elem_of_type_changes | apply elem_of_required_changes].
Qed.

(** X11: no list names a field twice, and a field that is added or removed
    appears in no other list. *)
Theorem drift_lists_disjoint (expected_contract actual_contract : Contract.t) :
  let report := compare_contract_fields expected_contract actual_contract in
  NoDup (Drift.added_fields report) ∧ NoDup (Drift.removed_fields report)
  ∧ NoDup (Drift.type_changes report) ∧ NoDup (Drift.required_changes report)
  ∧ (∀ f, f ∈ Drift.added_fields report →
          (f ∉ Drift.removed_fields report) ∧ (f ∉ Drift.type_changes report)
          ∧ (f ∉ Drift.required_changes report))
  ∧ (∀ f, f ∈ Drift.removed_fields report →
          (f ∉ Drift.type_changes report) ∧ (f ∉ Drift.required_changes report)).
Proof.
  intros report. subst report.
  destruct (drift_lists_nodup expected_contract actual_contract)
    as (Ha & Hr & Ht & Hq).
  do 4 (split; [assumption|]). split.
  - intros f [Hnone _]%elem_of_added. repeat split.
    + intros [[d Hd] _]%elem_of_removed. congruence.
    + intros (d & d' & Hd & _)%elem_of_type_changes. congruence.
    + intros (d & d' & Hd & _)%elem_of_required_changes. congruence.
  - intros f [_ Hnone]%elem_of_removed. split.
    + intros (d & d' & _ & Hd' & _)%elem_of_type_changes. congruence.
    + intros (d & d' & _ & Hd' & _)%elem_of_required_changes. congruence.
Qed.


(** ** Single edits of a contract *)

Lemma list_is_singleton {A} (l : list A) (a : A) :
  NoDup l → (∀ x, x ∈ l ↔ x = a) → l = [a].
Proof.
  intros Hnd Hmem. apply Permutation_singleton_r.
  apply NoDup_Permutation; [exact Hnd | apply NoDup_singleton |].
  intros x. rewrite Hmem, list_elem_of_singleton. tauto.
Qed.

Lemma drift_eq (r : Drift.t) (a rm t q : list string) :
  Drift.added_fields r = a → Drift.removed_fields r = rm →
  Drift.type_changes r = t → Drift.required_changes r = q →
  r = Drift.Build a rm t q.
Proof. destruct r. simpl. by intros -> -> -> ->. Qed.

(** X13: a contract that differs from the baseline by one new field gives a
    report with that field as the only added field and nothing else. *)
Theorem adding_a_field (X Y : Contract.t) (f : string) (d : Field.t) :
  field_of X f = None →
  Contract.get_fields Y = <[f := d]> (Contract.get_fields X) →
  compare_contract_fields X Y = Drift.Build [f] [] [] [].
Proof.
  intros Hnew HY.
  assert (HYf : ∀ x, field_of Y x = if decide (f = x) then Some d else field_of X x).
  { intros x. unfold field_of. rewrite HY. apply lookup_insert. }
  destruct (drift_lists_nodup X Y) as (Ha & _).
  apply drift_eq.
  - apply list_is_singleton; [exact Ha|]. intros x.
    rewrite elem_of_added, HYf. destruct (decide (f = x)) as [<-|Hne].
    + split; [done|]. intros _. split; [exact Hnew | eauto].
    + split; [|congruence]. intros [Hn [y Hy]]. congruence.
  - apply elem_of_nil_inv. intros x [[y Hy] Hn]%elem_of_removed.
    rewrite HYf in Hn. destruct (decide (f = x)); congruence.
  - apply elem_of_nil_inv. intros x (a & b & Hx & Hy & Hne)%elem_of_type_changes.
    rewrite HYf in Hy. destruct (decide (f = x)); congruence.
  - apply elem_of_nil_inv. intros x (a & b & Hx & Hy & Hne)%elem_of_required_changes.
    rewrite HYf in Hy. destruct (decide (f = x)); congruence.
Qed.

Lemma adding_a_field_witness :
  compare_contract_fields Samples.baseline
    (Samples.with_fields "2.1"
       (<["loyalty_tier" := Samples.email]> (Contract.get_fields Samples.baseline)))
  = Drift.Build ["loyalty_tier"] [] [] [].
Proof.
  apply (adding_a_field _ _ "loyalty_tier" Samples.email);
    [vm_compute; reflexivity | reflexivity].
Defined.

(** X14: a contract that differs from the baseline by one dropped field
    gives a report with that field as the only removed field and nothing
    else. *)
Theorem removing_a_field (X Y : Contract.t) (f : string) (d : Field.t) :
  field_of X f = Some d →
  Contract.get_fields Y = delete f (Contract.get_fields X) →
  compare_contract_fields X Y = Drift.Build [] [f] [] [].
Proof.
  intros Hold HY.
  assert (HYf : ∀ x, field_of Y x = if decide (f = x) then None else field_of X x).
  { intros x. unfold field_of. rewrite HY. apply lookup_delete. }
  destruct (drift_lists_nodup X Y) as (_ & Hr & _).
  apply drift_eq.
  - apply elem_of_nil_inv. intros x [Hn [y Hy]]%elem_of_added.
    rewrite HYf in Hy. destruct (decide (f = x)); congruence.
  - apply list_is_singleton; [exact Hr|]. intros x.
    rewrite elem_of_removed, HYf. destruct (decide (f = x)) as [<-|Hne].
    + split; [done|]. intros _. split; [eauto | done].
    + split; [|congruence]. intros [[y Hy] Hn]. congruence.
  - apply elem_of_nil_inv. intros x (a & b & Hx & Hy & Hne)%elem_of_type_changes.
    rewrite HYf in Hy. destruct (decide (f = x)); congruence.
  - apply elem_of_nil_inv. intros x (a & b & Hx & Hy & Hne)%elem_of_required_changes.
    rewrite HYf in Hy. destruct (decide (f = x)); congruence.
Qed.

Lemma removing_a_field_witness :
  compare_contract_fields Samples.baseline (Samples.with_fields "2.1" ∅)
  = Drift.Build [] ["email"] [] [].
Proof.
  apply (removing_a_field _ _ "email" Samples.email);
    [vm_compute; reflexivity | vm_compute; reflexivity].
Defined.

(** X15: a contract that differs from the baseline by the descriptor of one
    existing field lists that field as a type change when the type differs,
    as a required change when the required flag differs, and lists nothing
    else. *)
Theorem redescribing_a_field (X Y : Contract.t) (f : string) (d d' : Field.t) :
  field_of X f = Some d →
  Contract.get_fields Y = <[f := d']> (Contract.get_fields X) →
  compare_contract_fields X Y
  = Drift.Build [] []
      (if decide (Field.type d = Field.type d') then [] else [f])
      (if decide (Field.required d = Field.required d') then [] else [f]).
Proof.
  intros Hold HY.
  assert (HYf : ∀ x, field_of Y x = if decide (f = x) then Some d' else field_of X x).
  { intros x. unfold field_of. rewrite HY. apply lookup_insert. }
  destruct (drift_lists_nodup X Y) as (_ & _ & Ht & Hq).
  apply drift_eq.
  - apply elem_of_nil_inv. intros x [Hn [y Hy]]%elem_of_added.
    rewrite HYf in Hy. destruct (decide (f = x)); congruence.
  - apply elem_of_nil_inv. intros x [[y Hy] Hn]%elem_of_removed.
    rewrite HYf in Hn. destruct (decide (f = x)); congruence.
  - destruct (decide (Field.type d = Field.type d')) as [Heq|Hne].
    + apply elem_of_nil_inv. intros x (a & b & Hx & Hy & Hab)%elem_of_type_changes.
      rewrite HYf in Hy. destruct (decide (f = x)); congruence.
    + apply list_is_singleton; [exact Ht|]. intros x.
      rewrite elem_of_type_changes, HYf. destruct (decide (f = x)) as [<-|Hfx].
      * split; [done|]. intros _. exists d, d'. done.
      * split; [|congruence]. intros (a & b & Hx & Hy & Hab). congruence.
  - destruct (decide (Field.required d = Field.required d')) as [Heq|Hne].
    + apply elem_of_nil_inv.
      intros x (a & b & Hx & Hy & Hab)%elem_of_required_changes.
      rewrite HYf in Hy. destruct (decide (f = x)); congruence.
    + apply list_is_singleton; [exact Hq|]. intros x.
      rewrite elem_of_required_changes, HYf. destruct (decide (f = x)) as [<-|Hfx].
      * split; [done|]. intros _. exists d, d'. done.
      * split; [|congruence]. intros (a & b & Hx & Hy & Hab). congruence.
Qed.

Lemma redescribing_a_field_witness :
  compare_contract_fields Samples.baseline
    (Samples.with_fields "2.1"
       (<["email" := Field.Build (Some "int") (Some true)]>
          (Contract.get_fields Samples.baseline)))
  = Drift.Build [] [] ["email"] [].
Proof.
  apply (redescribing_a_field _ _ "email" Samples.email
           (Field.Build (Some "int") (Some true)));
    [vm_compute; reflexivity | reflexivity].
Defined.

(** ** When the label is FIELD_BREAKING_CHANGE *)

Lemma not_nil_elem {A} (l : list A) : l ≠ [] ↔ ∃ x, x ∈ l.
Proof.
  destruct l as [|a l]; split.
  - done.
  - intros [x Hx]. by apply not_elem_of_nil in Hx.
  - intros _. exists a. apply list_elem_of_here.
  - discriminate.
Qed.

(** The drift against a baseline is breaking exactly when the contract has
    lost a baseline field or describes one differently. *)
Lemma breaking_drift_iff (baseline contract : Contract.t) :
  let d := compare_contract_fields baseline contract in
  Drift.removed_fields d ≠ [] ∨ Drift.type_changes d ≠ []
  ∨ Drift.required_changes d ≠ []
  ↔ ∃ f old, field_of baseline f = Some old
             ∧ (field_of contract f = None
                ∨ ∃ new, field_of contract f = Some new ∧ ¬ same_shape old new).
Proof.
  intros d. subst d. rewrite !not_nil_elem. unfold same_shape. split.
  - intros [[f Hf] | [[f Hf] | [f Hf]]].
    + apply elem_of_removed in Hf as [[old Hold] Hnone]. eauto.
    + apply elem_of_type_changes in Hf as (old & new & Hold & Hnew & Hne).
      exists f, old. split; [done|]. right. exists new. tauto.
    + apply elem_of_required_changes in Hf as (old & new & Hold & Hnew & Hne).
      exists f, old. split; [done|]. right. exists new. tauto.
  - intros (f & old & Hold & [Hnone | (new & Hnew & Hshape)]).
    + left. exists f. apply elem_of_removed. eauto.
    + destruct (decide (Field.type old = Field.type new)) as [Ht|Ht].
      * destruct (decide (Field.required old = Field.required new)) as [Hq|Hq];
          [tauto|].
        right. right. exists f. apply elem_of_required_changes. eauto 10.
      * right. left. exists f. apply elem_of_type_changes. eauto 10.
Qed.

(** X16: the record of an evaluation against a baseline is labelled
    FIELD_BREAKING_CHANGE exactly when some field of the baseline is missing
    from the contract or has there another type or another required flag;
    fields the contract adds play no part. *)
Theorem breaking_label_iff env policy baseline contract r :
  evaluate env policy (Some baseline) contract = Ok r →
  (Report.decision r = "FIELD_BREAKING_CHANGE"
   ↔ ∃ f old, field_of baseline f = Some old
              ∧ (field_of contract f = None
                 ∨ ∃ new, field_of contract f = Some new ∧ ¬ same_shape old new)).
Proof.
  intros Hr.
  destruct (evaluate_ok_inv _ _ _ _ _ Hr) as (comparison & is_allowed & Hc & Ha).
  destruct (evaluate_record env policy (Some baseline) contract _ _ Hc Ha)
    as (r' & Hr' & _ & _ & _ & _ & Hlabel & _).
  assert (r' = r) as -> by congruence.
  pose proof (breaking_drift_iff baseline contract) as Hdrift.
  pose proof (breaking_changes_baseline baseline contract) as Hflag.
  cbv zeta in Hdrift, Hflag. rewrite <- Hdrift, <- Hflag, Hlabel.
  unfold final_label.
  destruct (breaking_changes (field_drift_detection (Some baseline) contract)).
  - tauto.
  - split; [|discriminate]. intros Heq.
    pose proof (decision_classification_range is_allowed comparison
                  (Policy.compatibility_mode policy)) as Hrange.
    rewrite Heq, !elem_of_cons, elem_of_nil in Hrange.
    destruct Hrange as [E | [E | [E | [E | []]]]]; discriminate E.
Qed.

Lemma breaking_label_iff_witness :
  ∃ r, evaluate Samples.env (Samples.policy "override" "batch")
         (Some Samples.baseline) (Samples.with_fields "2.1" ∅) = Ok r
       ∧ ∃ f old, field_of Samples.baseline f = Some old
                  ∧ (field_of (Samples.with_fields "2.1" ∅) f = None
                     ∨ ∃ new, field_of (Samples.with_fields "2.1" ∅) f = Some new
                              ∧ ¬ same_shape old new).
Proof.
  destruct (evaluate Samples.env (Samples.policy "override" "batch")
              (Some Samples.baseline) (Samples.with_fields "2.1" ∅))
    as [r|e] eqn:E.
  - exists r. split; [reflexivity|].
    apply (breaking_label_iff _ _ _ _ r E).
    vm_compute in E. injection E as <-. reflexivity.
  - vm_compute in E. discriminate E.
Defined.

(** ** Tiers and gates *)

(** X17: the classifier answers with a tier from 1 to 5; it blocks the
    deployment exactly at tier 1 and asks for a review exactly at tiers 1 to
    3; tier 1 is reached exactly through the label FIELD_BREAKING_CHANGE or
    the comparison MAJOR_UPGRADE. *)
Theorem classify_impact_invariants (decision_label comparison_result : string)
    (field_drift : option Drift.t) :
  let c := classify_impact decision_label comparison_result field_drift in
  1 ≤ Impact.impact_tier c ≤ 5
  ∧ Impact.blocks_deployment c = (Impact.impact_tier c =? 1)
  ∧ Impact.requires_review c = (Impact.impact_tier c <=? 3)
  ∧ (Impact.impact_tier c = 1
     ↔ decision_label = "FIELD_BREAKING_CHANGE"
       ∨ comparison_result = "MAJOR_UPGRADE").
Proof.
  intros c. subst c. unfold classify_impact.
  case_eqb decision_label "FIELD_BREAKING_CHANGE".
  { simpl. repeat split; auto; lia. }
  case_eqb comparison_result "MAJOR_UPGRADE".
  { simpl. repeat split; auto; lia. }
  repeat case_match; simpl; repeat split; try lia; try discriminate;
    intros [? | ?]; contradiction.
Qed.

(** X18: the gate answers for every integer: it blocks the pipeline exactly
    at tier 1, asks for manual approval exactly at tiers 1 to 3, answers
    NO_ACTION to every integer outside 1 to 4, and gives the tiers 1 to 5
    five different statuses. *)
Theorem evaluate_cicd_gate_total (tier tier' : Z) :
  let g := evaluate_cicd_gate tier in
  Gate.blocks_pipeline g = (tier =? 1)
  ∧ Gate.requires_manual_approval g = ((1 <=? tier) && (tier <=? 3))
  ∧ (tier < 1 ∨ 4 < tier → Gate.gate_status g = "NO_ACTION")
  ∧ (1 ≤ tier ≤ 5 → 1 ≤ tier' ≤ 5 →
     Gate.gate_status g = Gate.gate_status (evaluate_cicd_gate tier') →
     tier = tier').
Proof.
  intros g. subst g. unfold evaluate_cicd_gate.
  repeat split.
  - repeat (case_match; simpl; try reflexivity); lia.
  - destruct (Z.eqb_spec tier 1), (Z.eqb_spec tier 2), (Z.eqb_spec tier 3),
      (Z.eqb_spec tier 4), (Z.leb_spec 1 tier), (Z.leb_spec tier 3);
      simpl; try reflexivity; lia.
  - intros H.
    destruct (Z.eqb_spec tier 1), (Z.eqb_spec tier 2), (Z.eqb_spec tier 3),
      (Z.eqb_spec tier 4); simpl; try reflexivity; lia.
  - intros H H'.
    destruct (Z.eqb_spec tier 1), (Z.eqb_spec tier 2), (Z.eqb_spec tier 3),
      (Z.eqb_spec tier 4); simpl;
      destruct (Z.eqb_spec tier' 1), (Z.eqb_spec tier' 2), (Z.eqb_spec tier' 3),
        (Z.eqb_spec tier' 4); simpl; intros E; try discriminate E; lia.
Qed.

Lemma evaluate_cicd_gate_total_witness :
  Gate.gate_status (evaluate_cicd_gate 0) = "NO_ACTION".
Proof. apply (evaluate_cicd_gate_total 0 0). lia. Defined.

(** X19: the gate derived from a classification blocks the pipeline exactly
    when the classification blocks the deployment, and asks for manual
    approval exactly when the classification asks for a review. *)
Theorem gate_follows_classifier (decision_label comparison_result : string)
    (field_drift : option Drift.t) :
  let c := classify_impact decision_label comparison_result field_drift in
  let g := evaluate_cicd_gate (Impact.impact_tier c) in
  Gate.blocks_pipeline g = Impact.blocks_deployment c
  ∧ Gate.requires_manual_approval g = Impact.requires_review c.
Proof.
  intros c g. subst g c. unfold classify_impact.
  repeat case_match; split; reflexivity.
Qed.

(** ** How a run ends *)

(** The evaluation raises nothing but the two [ValueError]s of the
    comparator and of the policy evaluator, the comparator's first. *)
Lemma evaluate_raise_cases env policy baseline contract :
  match version_comparison (Contract.version contract)
          (Policy.expected_version policy) with
  | Raise _ =>
      evaluate env policy baseline contract = Raise invalid_version_format
  | Ok comparison =>
      match evaluate_compatibility comparison (Policy.compatibility_mode policy) with
      | Raise _ =>
          evaluate env policy baseline contract
          = Raise (unknown_mode (Policy.compatibility_mode policy))
      | Ok _ => ∃ r, evaluate env policy baseline contract = Ok r
      end
  end.
Proof.
  destruct (version_comparison _ _) as [comparison|e] eqn:Hc.
  - destruct (evaluate_compatibility _ _) as [b|e] eqn:Ha.
    + destruct (evaluate_record env policy baseline contract _ _ Hc Ha)
        as (r & Hr & _). eauto.
    + unfold evaluate. rewrite Hc. unfold mbind at 1, result_bind.
      rewrite Ha. unfold mbind, result_bind.
      revert Ha. unfold evaluate_compatibility.
      repeat case_match; try discriminate. by intros [= <-].
  - unfold evaluate. rewrite Hc. unfold mbind, result_bind.
    destruct (Contract.version contract) as [v|]; simpl in Hc.
    + revert Hc. unfold compare_versions.
      repeat case_match; try discriminate; by intros [= <-].
    + by injection Hc as <-.
Qed.

(** X20: the exit code of a run is 1 when the evaluation raises, 0 when the
    decision is allowed or the profile is "streaming", and 2 otherwise;
    nothing else comes out. *)
Theorem run_exit_code env policy baseline contract :
  exit_code (fst (run env policy baseline contract))
  = match evaluate env policy baseline contract with
    | Raise _ => 1
    | Ok r =>
        if Report.allowed r || (Policy.get_execution_profile policy == "streaming")
        then 0 else 2
    end.
Proof.
  pose proof (evaluate_raise_cases env policy baseline contract) as Hcases.
  destruct (evaluate env policy baseline contract) as [r|e] eqn:Hr.
  - rewrite (run_evaluated _ _ _ _ _ Hr).
    destruct (evaluate_ok_inv _ _ _ _ _ Hr) as (comparison & is_allowed & Hc & Ha).
    destruct (evaluate_record env policy baseline contract _ _ Hc Ha)
      as (r' & Hr' & _ & _ & Hprof & _).
    assert (r' = r) as -> by congruence.
    rewrite Hprof. generalize (Policy.get_execution_profile policy).
    intros profile.
    destruct (Report.allowed r); [reflexivity|]. simpl orb.
    case_eqb profile "batch".
    { by rewrite profile_enforcement_batch. }
    case_eqb profile "streaming"; [reflexivity|].
    by rewrite profile_enforcement_unknown.
  - rewrite (run_raised _ _ _ _ _ Hr). simpl.
    destruct (version_comparison _ _) as [comparison|];
      [destruct (evaluate_compatibility _ _) as [b|]|].
    + destruct Hcases as [r Hok]. discriminate Hok.
    + injection Hcases as ->. reflexivity.
    + injection Hcases as ->. reflexivity.
Qed.

Lemma add_log_nil (w : World.t) : add_log w [] = w.
Proof. destruct w. unfold add_log. simpl. by rewrite app_nil_r. Qed.

(** X21: under the profile "streaming" a run that reaches a decision never
    ends early: it completes, and a denial leaves exactly one WARNING line
    after the gate's. *)
Theorem streaming_never_terminates env policy baseline contract r :
  Policy.get_execution_profile policy = "streaming" →
  evaluate env policy baseline contract = Ok r →
  run env policy baseline contract
  = (Ok (),
     add_log (audited env r)
       (if Report.allowed r then []
        else [(WARNING,
               "Streaming profile detected. Compatibility drift logged but pipeline continues.")])).
Proof.
  intros Hprofile Hr. rewrite (run_evaluated _ _ _ _ _ Hr).
  destruct (evaluate_ok_inv _ _ _ _ _ Hr) as (comparison & is_allowed & Hc & Ha).
  destruct (evaluate_record env policy baseline contract _ _ Hc Ha)
    as (r' & Hr' & _ & _ & Hprof & _).
  assert (r' = r) as -> by congruence.
  rewrite Hprof, Hprofile.
  destruct (Report.allowed r).
  - by rewrite profile_enforcement_allowed, add_log_nil.
  - reflexivity.
Qed.

Lemma streaming_never_terminates_witness :
  fst (run Samples.env (Samples.policy "strict" "streaming") None
         (Samples.bare "3.0")) = Ok ().
Proof.
  destruct (evaluate Samples.env (Samples.policy "strict" "streaming") None
              (Samples.bare "3.0")) as [r|e] eqn:E.
  - rewrite (streaming_never_terminates Samples.env
               (Samples.policy "strict" "streaming") None (Samples.bare "3.0")
               r eq_refl E).
    reflexivity.
  - vm_compute in E. discriminate E.
Defined.

(** X22: the record is written before anything is enforced: whenever the
    evaluation yields a record, the run leaves it as the one file of the
    report directory, also when the run is then ended with exit code 2; a
    run whose evaluation raises leaves no file and no log line. *)
Theorem report_written_before_enforcement env policy baseline contract :
  match evaluate env policy baseline contract with
  | Ok r =>
      World.reports (snd (run env policy baseline contract))
      = {[ report_path env "reports" := r ]}
  | Raise e =>
      run env policy baseline contract = (Raise e, World.init)
  end.
Proof.
  destruct (evaluate env policy baseline contract) as [r|e] eqn:Hr.
  - rewrite (run_evaluated _ _ _ _ _ Hr).
    unfold profile_enforcement.
    destruct (Report.allowed r); [reflexivity|]. simpl negb. cbv iota.
    repeat case_match; try rewrite terminate_pipeline_exits; reflexivity.
  - by apply run_raised.
Qed.

(** X23: a missing or malformed version and an unknown mode end the run
    with the [ValueError] itself, exit code 1, outside the termination
    handler; the version is looked at first, so a malformed version hides an
    unknown mode. *)
Theorem configuration_errors_escape env policy baseline contract :
  let mode := Policy.compatibility_mode policy in
  match version_comparison (Contract.version contract)
          (Policy.expected_version policy) with
  | Raise _ =>
      run env policy baseline contract = (Raise invalid_version_format, World.init)
  | Ok _ =>
      mode ∉ recognised_modes →
      run env policy baseline contract = (Raise (unknown_mode mode), World.init)
      ∧ exit_code (fst (run env policy baseline contract)) = 1
  end.
Proof.
  intros mode. subst mode.
  pose proof (evaluate_raise_cases env policy baseline contract) as Hcases.
  destruct (version_comparison _ _) as [comparison|e].
  - intros Hmode.
    rewrite (evaluate_compatibility_unknown comparison _ Hmode) in Hcases.
    rewrite (run_raised _ _ _ _ _ Hcases). split; reflexivity.
  - by apply run_raised.
Qed.

(** X24: a block by the gate is only logged: under [override], a contract
    whose major is greater than expected and whose drift is not breaking is
    allowed, classified tier 1 with the gate BLOCK, and the run completes
    with exit code 0 whatever the profile. *)
Theorem gate_block_does_not_stop env policy baseline contract cM cm eM em v :
  Policy.compatibility_mode policy = "override" →
  Contract.version contract = Some v →
  version_parts v cM cm →
  version_parts (Policy.expected_version policy) eM em →
  cM > eM →
  breaking_changes (field_drift_detection baseline contract) = false →
  ∃ r, evaluate env policy baseline contract = Ok r
       ∧ Report.allowed r = true
       ∧ Report.decision r = "SOFT_PASS_DRIFT"
       ∧ Report.impact_tier r = 1
       ∧ Gate.gate_status (Report.cicd_gate r) = "BLOCK"
       ∧ run env policy baseline contract
         = (Ok (),
            {| World.log := [(ERROR, "CI/CD Gate Blocked Deployment.")];
               World.reports := {[ report_path env "reports" := r ]} |}).
Proof.
  intros Hmode Hv Hc He Hgt Hbreak.
  assert (Hcmp : version_comparison (Contract.version contract)
                   (Policy.expected_version policy) = Ok "MAJOR_UPGRADE").
  { rewrite Hv. simpl.
    destruct (compare_versions_of_parts _ _ _ _ _ _ Hc He)
      as [[? E] | [[? E] | [(? & ? & E) | [(? & ? & E) | (? & ? & E)]]]];
      try lia. exact E. }
  assert (Ha : evaluate_compatibility "MAJOR_UPGRADE"
                 (Policy.compatibility_mode policy) = Ok true)
    by (rewrite Hmode; reflexivity).
  destruct (evaluate_record env policy baseline contract _ _ Hcmp Ha)
    as (r & Hr & _ & _ & _ & Hallowed & Hlabel & _ & _ & _ & Htier & _ & Hgate).
  rewrite Hbreak in Hallowed, Hlabel, Htier, Hgate.
  rewrite Hmode in Hlabel, Htier, Hgate.
  exists r. split; [exact Hr|]. split; [exact Hallowed|].
  split; [exact Hlabel|]. split; [exact Htier|].
  split; [by rewrite Hgate|].
  rewrite (run_evaluated _ _ _ _ _ Hr), Hallowed, profile_enforcement_allowed.
  unfold audited, add_log. rewrite Hgate. reflexivity.
Qed.

Lemma gate_block_does_not_stop_witness :
  exit_code (fst (run Samples.env (Samples.policy "override" "batch") None
                    (Samples.bare "3.0"))) = 0.
Proof.
  destruct (gate_block_does_not_stop Samples.env (Samples.policy "override" "batch")
              None (Samples.bare "3.0") 3 0 2 0 "3.0")
    as (r & _ & _ & _ & _ & _ & Hrun).
  - reflexivity.
  - reflexivity.
  - exists "3", "0". repeat split; reflexivity.
  - exists "2", "0". repeat split; reflexivity.
  - reflexivity.
  - reflexivity.
  - rewrite Hrun. reflexivity.
Defined.

(** X25: every record the orchestrator assembles says that drift was
    detected and none is labelled PASS, equal versions included: the
    comparison text the PASS branch waits for never comes. *)
Theorem every_record_reports_drift env policy baseline contract r :
  evaluate env policy baseline contract = Ok r →
  Report.drift_detected r = true ∧ Report.decision r ≠ "PASS".
Proof.
  intros Hr. pose proof (pass_unreachable _ _ _ _ _ Hr) as Hpass.
  split; [|exact Hpass].
  destruct (evaluate_ok_inv _ _ _ _ _ Hr) as (comparison & is_allowed & Hc & Ha).
  destruct (evaluate_record env policy baseline contract _ _ Hc Ha)
    as (r' & Hr' & _ & _ & _ & _ & Hlabel & _ & Hdrift & _).
  assert (r' = r) as -> by congruence.
  rewrite Hdrift. rewrite Hlabel in Hpass. revert Hpass.
  unfold final_label. destruct (breaking_changes _); [reflexivity|].
  pose proof (decision_classification_range is_allowed comparison
                (Policy.compatibility_mode policy)) as Hrange.
  rewrite !elem_of_cons, elem_of_nil in Hrange.
  destruct Hrange as [E | [E | [E | [E | []]]]]; rewrite E; try reflexivity.
  intros H. contradiction.
Qed.

Lemma every_record_reports_drift_witness :
  ∃ r, evaluate Samples.env (Samples.policy "override" "batch") None
         (Samples.bare "2.0") = Ok r
       ∧ Report.drift_detected r = true.
Proof.
  destruct (evaluate Samples.env (Samples.policy "override" "batch") None
              (Samples.bare "2.0")) as [r|e] eqn:E.
  - exists r. split; [reflexivity|].
    apply (every_record_reports_drift _ _ _ _ r E).
  - vm_compute in E. discriminate E.
Defined.

(** X26: without a drift report (no baseline, or a baseline document
    without keys) the label is never FIELD_BREAKING_CHANGE and the tier
    follows the comparison alone: tier 1 with the gate BLOCK on
    MAJOR_UPGRADE, tier 5 with NO_IMPACT and the gate NO_ACTION on every
    other comparison, a denied downgrade included. *)
Theorem tier_without_drift_report env policy baseline contract r :
  field_drift_detection baseline contract = None →
  evaluate env policy baseline contract = Ok r →
  Report.field_drift r = None
  ∧ Report.decision r ≠ "FIELD_BREAKING_CHANGE"
  ∧ (Report.comparison_result r = "MAJOR_UPGRADE" →
     Report.impact_tier r = 1
     ∧ Report.drift_category r = "MAJOR_VERSION_BREAK"
     ∧ Gate.gate_status (Report.cicd_gate r) = "BLOCK")
  ∧ (Report.comparison_result r ≠ "MAJOR_UPGRADE" →
     Report.impact_tier r = 5
     ∧ Report.drift_category r = "NO_IMPACT"
     ∧ Gate.gate_status (Report.cicd_gate r) = "NO_ACTION").
Proof.
  intros Hnone Hr.
  destruct (evaluate_ok_inv _ _ _ _ _ Hr) as (comparison & is_allowed & Hc & Ha).
  destruct (evaluate_record env policy baseline contract _ _ Hc Ha)
    as (r' & Hr' & Hcmp & _ & _ & _ & Hlabel & _ & _ & Hdrift & Htier & Hcat & Hgate).
  assert (r' = r) as -> by congruence.
  rewrite Hnone in *. simpl breaking_changes in *. unfold final_label in *.
  pose proof (decision_classification_range is_allowed comparison
                (Policy.compatibility_mode policy)) as Hrange.
  set (label := decision_classification is_allowed comparison
                  (Policy.compatibility_mode policy)) in *.
  assert (Hne : label ≠ "FIELD_BREAKING_CHANGE").
  { intros Heq. rewrite Heq, !elem_of_cons, elem_of_nil in Hrange.
    destruct Hrange as [E | [E | [E | [E | []]]]]; discriminate E. }
  split; [exact Hdrift|]. split; [by rewrite Hlabel|].
  rewrite Hcmp, Hgate, Htier, Hcat. unfold classify_impact.
  apply eqb_false in Hne. rewrite Hne. split.
  - intros ->. repeat split.
  - intros Hmu. apply eqb_false in Hmu. rewrite Hmu. repeat split.
Qed.

Lemma tier_without_drift_report_witness :
  ∃ r, evaluate Samples.env (Samples.policy "strict" "batch") None
         (Samples.bare "1.0") = Ok r
       ∧ Report.decision r = "HARD_FAIL"
       ∧ Report.impact_tier r = 5.
Proof.
  destruct (evaluate Samples.env (Samples.policy "strict" "batch") None
              (Samples.bare "1.0")) as [r|e] eqn:E.
  - exists r. split; [reflexivity|].
    destruct (tier_without_drift_report Samples.env
                (Samples.policy "strict" "batch") None (Samples.bare "1.0") r
                eq_refl E) as (_ & _ & _ & H5).
    vm_compute in E. injection E as <-.
    split; [reflexivity|]. apply H5. discriminate.
  - vm_compute in E. discriminate E.
Defined.

(** X27: under [strict] with the batch profile no contract gets through:
    for any two well-formed versions, equal ones included, and any baseline,
    the run is ended with exit code 2. *)
Theorem strict_batch_always_terminates env policy baseline contract v :
  Policy.compatibility_mode policy = "strict" →
  Policy.get_execution_profile policy = "batch" →
  Contract.version contract = Some v →
  well_formed v → well_formed (Policy.expected_version policy) →
  fst (run env policy baseline contract) = Raise (SystemExit 2).
Proof.
  intros Hmode Hprofile Hv (cM & cm & Hc) (eM & em & He).
  pose proof (compare_versions_of_parts _ _ _ _ _ _ Hc He) as Hcases.
  assert (∃ cmp, compare_versions v (Policy.expected_version policy) = Ok cmp)
    as [cmp Hcmp].
  { destruct Hcases
      as [[? E] | [[? E] | [(? & ? & E) | [(? & ? & E) | (? & ? & E)]]]]; eauto. }
  pose proof (strict_denies_every_comparison _ _ _ Hcmp) as Hdeny.
  assert (Hvc : version_comparison (Contract.version contract)
                  (Policy.expected_version policy) = Ok cmp)
    by (rewrite Hv; exact Hcmp).
  rewrite <- Hmode in Hdeny.
  destruct (evaluate_record env policy baseline contract _ _ Hvc Hdeny)
    as (r & Hr & _ & _ & Hprof & Hallowed & _).
  assert (Report.allowed r = false) as Hfalse
    by (rewrite Hallowed; by destruct (breaking_changes _)).
  rewrite (run_evaluated _ _ _ _ _ Hr), Hfalse, Hprof, Hprofile.
  by rewrite profile_enforcement_batch.
Qed.

Lemma strict_batch_always_terminates_witness :
  fst (run Samples.env (Samples.policy "strict" "batch") None (Samples.bare "2.0"))
  = Raise (SystemExit 2).
Proof.
  apply (strict_batch_always_terminates Samples.env
           (Samples.policy "strict" "batch") None (Samples.bare "2.0") "2.0");
    try reflexivity.
  - exists 2, 0, "2", "0". repeat split; reflexivity.
  - exists 2, 0, "2", "0". repeat split; reflexivity.
Defined.

(** ** The handler and the writer *)

(** The termination handler never returns: whatever the reason, the
    code and the flag, it raises [SystemExit] with exactly the code it was
    given, leaves the reports alone, and logs the reason first and the code
    last, with the two lines about unprocessed rows in between only when no
    row was started. *)
Theorem terminate_pipeline_always_exits (reason_message : string) (code : Z)
    (rows_started : bool) (w : World.t) :
  terminate_pipeline (A := unit) reason_message code rows_started w
  = (Raise (SystemExit code),
     add_log w
       ([(ERROR, reason_message)]
        ++ (if rows_started then []
            else [(ERROR, "PIPELINE TERMINATED BEFORE DATA PROCESSING");
                  (ERROR, "NO ROWS WERE PROCESSED")])
        ++ [(ERROR, "GOVERNANCE EXIT CODE: " ++ pretty code)])).
Proof.
  unfold terminate_pipeline, add_log, when, emit, raise.
  unfold mbind, M_bind, mret, M_ret.
  destruct rows_started; simpl; rewrite <- !app_assoc; reflexivity.
Qed.

Lemma string_length_app (s t : string) :
  String.length (s ++ t) = (String.length s + String.length t)%nat.
Proof. induction s as [|c s IH]; simpl; [reflexivity | by rewrite IH]. Qed.

Lemma string_app_inj_l (p x y : string) : p ++ x = p ++ y → x = y.
Proof. induction p as [|c p IH]; simpl; [done|]. intros [= H]. auto. Qed.

Lemma string_app_inj_r (t x y : string) : x ++ t = y ++ t → x = y.
Proof.
  revert y. induction x as [|c x IH]; intros [|d y] H; simpl in H.
  - reflexivity.
  - apply (f_equal String.length) in H. simpl in H.
    rewrite !string_length_app in H. simpl in H. lia.
  - apply (f_equal String.length) in H. simpl in H.
    rewrite !string_length_app in H. simpl in H. lia.
  - injection H as -> H. f_equal. by apply IH.
Qed.



(** ** Where the baseline is looked up *)

(** X29: the baseline file is named after the text before the first dot of
    the expected version, taken as it is written: two expected versions lead
    to the same file exactly when these texts are the same, so versions that
    compare EQUAL, such as "2.0" and "02.0", can lead to different
    baselines. *)
Theorem baseline_contract_path_by_major_text (v v' : string) :
  (baseline_contract_path v = baseline_contract_path v'
   ↔ hd "" (Py.split "." v) = hd "" (Py.split "." v'))
  ∧ (∀ major rest, Py.split "." v = major :: rest →
       baseline_contract_path v = "contracts/contract_v" ++ major ++ ".json")
  ∧ compare_versions "02.0" "2.0" = Ok "EQUAL"
  ∧ baseline_contract_path "02.0" ≠ baseline_contract_path "2.0".
Proof.
  split; [|split; [|split]].
  - unfold baseline_contract_path. split.
    + intros H. apply string_app_inj_l in H. by apply string_app_inj_r in H.
    + by intros ->.
  - intros major rest H. unfold baseline_contract_path. by rewrite H.
  - reflexivity.
  - discriminate.
Qed.
